(** * http_limiter: rate-limit middleware for net/http

  A shallow embedding of package [http_limiter] (the middleware built by
  [NewWithConfig], its defaults, and the client-IP key derivation [GetIP])
  together with the parts of the Go standard library the package calls:
  [strings.SplitN], [strings.TrimSpace], [strconv.FormatInt],
  [textproto.CanonicalMIMEHeaderKey], [http.Header], [net.ParseIP],
  [net.IP.String], [net.SplitHostPort], [time.Time.Add] and
  [time.Time.Unix].

  Go strings are byte sequences: a [string] of 8-bit [ascii] characters.
  Go's [int], [int64], [uint] and [time.Duration] are [Z]. *)

From Stdlib Require Import ZArith List String Ascii Bool Lia.
From Stdlib Require Import DecimalString DecimalPos DecimalZ.
From stdpp Require Import base option gmap strings.

Local Open Scope string_scope.
Local Open Scope list_scope.
Local Open Scope Z_scope.

(** ** Bytes of a string *)

Definition byte_of (c : ascii) : Z := Z.of_N (N_of_ascii c).

Definition in_range (lo hi c : ascii) : bool :=
(byte_of lo <=? byte_of c) && (byte_of c <=? byte_of hi).

Fixpoint string_rev (s : string) : string :=
match s with
| EmptyString => EmptyString
| String c s' => string_rev s' +:+ String c EmptyString
end.

(** [strip_prefix p s] is [Some rest] when [s = p ++ rest]. *)
Fixpoint strip_prefix (p s : string) : option string :=
match p, s with
| EmptyString, _ => Some s
| String a p', String b s' =>
    if Ascii.eqb a b then strip_prefix p' s' else None
| String _ _, EmptyString => None
end.

Fixpoint contains_byte (c : ascii) (s : string) : bool :=
match s with
| EmptyString => false
| String a s' => Ascii.eqb a c || contains_byte c s'
end.

Definition is_none {A : Type} (o : option A) : bool :=
  match o with
  | Some _ => false
  | None => true
  end.

(** ** Package strings *)

Module strings.

(** [Cut s sep]: the text before and after the first [sep], if any. *)
Fixpoint Cut (s : string) (sep : ascii) : option (string * string) :=
  match s with
  | EmptyString => None
  | String c s' =>
      if Ascii.eqb c sep then Some (EmptyString, s')
      else match Cut s' sep with
           | Some (a, b) => Some (String c a, b)
           | None => None
           end
  end.

(** [genSplit] with at most [cuts] separators consumed. *)
Fixpoint genSplit (s : string) (sep : ascii) (cuts : nat) : list string :=
  match cuts with
  | O => [s]
  | S cuts' =>
      match Cut s sep with
      | None => [s]
      | Some (a, b) => a :: genSplit b sep cuts'
      end
  end.

(** [strings.SplitN(s, sep, n)] for a one-byte separator:
    [n = 0] gives no substrings, [n < 0] all of them, [n > 0] at most [n],
    the last one being the unsplit remainder. *)
Definition SplitN (s : string) (sep : ascii) (n : Z) : list string :=
  if n =? 0 then []
  else if n <? 0 then genSplit s sep (String.length s)
  else genSplit s sep (Z.to_nat (n - 1)).

(** The UTF-8 encodings of the runes for which [unicode.IsSpace] holds:
    tab, LF, VT, FF, CR, space, U+0085, U+00A0, U+1680, U+2000..U+200A,
    U+2028, U+2029, U+202F, U+205F, U+3000. *)
Definition bytes (l : list Z) : string :=
  string_of_list_ascii (map (fun z => ascii_of_N (Z.to_N z)) l).

Definition space_runes : list string :=
  map bytes
    [ [9]; [10]; [11]; [12]; [13]; [32];
      [194; 133]; [194; 160];
      [225; 154; 128];
      [226; 128; 128]; [226; 128; 129]; [226; 128; 130]; [226; 128; 131];
      [226; 128; 132]; [226; 128; 133]; [226; 128; 134]; [226; 128; 135];
      [226; 128; 136]; [226; 128; 137]; [226; 128; 138];
      [226; 128; 168]; [226; 128; 169]; [226; 128; 175];
      [226; 129; 159];
      [227; 128; 128] ].

(** The rest of [s] after one leading rune out of [runes], if it has one. *)
Fixpoint strip_one (runes : list string) (s : string) : option string :=
  match runes with
  | [] => None
  | e :: runes' =>
      match strip_prefix e s with
      | Some rest => Some rest
      | None => strip_one runes' s
      end
  end.

Fixpoint trim_left (fuel : nat) (runes : list string) (s : string) : string :=
  match fuel with
  | O => s
  | S fuel' =>
      match strip_one runes s with
      | Some rest => trim_left fuel' runes rest
      | None => s
      end
  end.

Definition TrimLeftSpace (s : string) : string :=
  trim_left (String.length s) space_runes s.

(** Trailing runes are the leading runes of the reversed string, with the
    encodings reversed. *)
Definition TrimRightSpace (s : string) : string :=
  string_rev
    (trim_left (String.length s) (map string_rev space_runes) (string_rev s)).

(** [strings.TrimSpace]: all leading and trailing white space removed. *)
Definition TrimSpace (s : string) : string :=
  TrimRightSpace (TrimLeftSpace s).

End strings.

(** ** Package strconv *)

Module strconv.

(** [strconv.FormatInt(i, 10)]: signed decimal, no leading zeros. *)
Definition FormatInt (i : Z) : string :=
  NilZero.string_of_int (Z.to_int i).

(** [strconv.Itoa(i)] is [FormatInt(int64(i), 10)]. *)
Definition Itoa (i : Z) : string := FormatInt i.

(** The inverse reading, used to state that a header carries a number. *)
Definition ParseInt (s : string) : option Z :=
  match NilZero.int_of_string s with
  | Some d => Some (Z.of_int d)
  | None => None
  end.

End strconv.

(** ** Package time *)

Module time.

(** A wall-clock instant: seconds since the Unix epoch and nanoseconds
    within that second ([0 <= nsec < 10^9]). *)
Record Time := mkTime { sec : Z; nsec : Z }.

(** [time.Duration]: a signed count of nanoseconds. *)
Definition Duration := Z.

Definition Second : Duration := 1000000000.
Definition Minute : Duration := 60 * Second.

Definition valid (t : Time) : Prop := 0 <= nsec t < 1000000000.

(** [Time.Add]: Go's [/] and [%] truncate toward zero ([Z.quot],
    [Z.rem]); the nanosecond field is renormalised into [[0, 10^9)]. *)
Definition Add (t : Time) (d : Duration) : Time :=
  let dsec := Z.quot d 1000000000 in
  let n := nsec t + Z.rem d 1000000000 in
  if 1000000000 <=? n then mkTime (sec t + (dsec + 1)) (n - 1000000000)
  else if n <? 0 then mkTime (sec t + (dsec - 1)) (n + 1000000000)
  else mkTime (sec t + dsec) n.

(** [Time.Unix]: whole seconds since the epoch. *)
Definition Unix (t : Time) : Z := sec t.

(** The instant as nanoseconds since the epoch. *)
Definition UnixNano (t : Time) : Z := sec t * 1000000000 + nsec t.

End time.

(** ** Panics *)

(** What a Go call yields: a value, or a panic with its message. *)
Inductive Outcome (A : Type) : Type :=
| Done (a : A)
| Panic (msg : string).

Arguments Done {A} a.
Arguments Panic {A} msg.

(** The next statement runs on the value; a panic ends the call. *)
Definition and_then {A B : Type} (o : Outcome A) (f : A -> Outcome B) : Outcome B :=
  match o with
  | Done a => f a
  | Panic msg => Panic msg
  end.

(** ** Package net/textproto and the header map of net/http *)

Module http.

(** Bytes allowed in a header field name (an RFC 7230 token). *)
Definition validHeaderFieldByte (c : ascii) : bool :=
  in_range "a" "z" c || in_range "A" "Z" c || in_range "0" "9" c
  || contains_byte c "!#$%&'*+-.^_`|~".

Definition toUpper (c : ascii) : ascii :=
  if in_range "a" "z" c then ascii_of_N (N_of_ascii c - 32) else c.

Definition toLower (c : ascii) : ascii :=
  if in_range "A" "Z" c then ascii_of_N (N_of_ascii c + 32) else c.

(** First letter and every letter after a dash in upper case, the others in
    lower case. *)
Fixpoint canonical (upper : bool) (s : string) : string :=
  match s with
  | EmptyString => EmptyString
  | String c s' =>
      let c' := if upper then toUpper c else toLower c in
      String c' (canonical (Ascii.eqb c' "-") s')
  end.

Fixpoint all_bytes (p : ascii -> bool) (s : string) : bool :=
  match s with
  | EmptyString => true
  | String c s' => p c && all_bytes p s'
  end.

(** [textproto.CanonicalMIMEHeaderKey]: a key with a byte outside the token
    alphabet is returned as it is. *)
Definition CanonicalMIMEHeaderKey (s : string) : string :=
  if all_bytes validHeaderFieldByte s then canonical true s else s.

(** [http.Header]: canonical key to list of values. *)
Abbreviation Header := (gmap string (list string)).

(** [Header.Get]: the first value of the key, [""] when there is none. *)
Definition Header_Get (h : Header) (key : string) : string :=
  match h !! CanonicalMIMEHeaderKey key with
  | Some (v :: _) => v
  | _ => EmptyString
  end.

(** [Header.Set]: the key's values are replaced by the single [value]. *)
Definition Header_Set (h : Header) (key value : string) : Header :=
  <[CanonicalMIMEHeaderKey key := [value]]> h.

(** [*http.Request], with the fields a middleware callback can read. *)
Record Request := mkRequest {
  Method : string;
  RequestURI : string;
  ReqHeader : Header;
  RemoteAddr : string
}.

(** [http.ResponseWriter], as [httptest.ResponseRecorder] records a
    response: the header map can be changed at any time, the first
    [WriteHeader] fixes the status code and the headers that are sent,
    [Write] sends status 200 first when no status was sent yet. *)
Record ResponseWriter := mkResponseWriter {
  HeaderMap : Header;
  wroteHeader : bool;
  Code : Z;
  snapHeader : Header;
  Body : string
}.

Definition NewRecorder : ResponseWriter :=
  mkResponseWriter ∅ false 200 ∅ EmptyString.

Definition SetHeader (w : ResponseWriter) (key value : string) : ResponseWriter :=
  mkResponseWriter (Header_Set (HeaderMap w) key value)
    (wroteHeader w) (Code w) (snapHeader w) (Body w).

(** [checkWriteHeaderCode]: whether the code has three digits; the writers
    of net/http panic on any other. *)
Definition checkWriteHeaderCode (code : Z) : bool :=
  (100 <=? code) && (code <=? 999).

(** The status and the headers of a response that has sent none yet are
    fixed. *)
Definition recordHeader (w : ResponseWriter) (code : Z) : ResponseWriter :=
  mkResponseWriter (HeaderMap w) true code (HeaderMap w) (Body w).

(** [WriteHeader]: nothing happens when the header was written already;
    otherwise a code outside 100..999 panics and any other is recorded. *)
Definition WriteHeader (w : ResponseWriter) (code : Z) : Outcome ResponseWriter :=
  if wroteHeader w then Done w
  else if checkWriteHeaderCode code then Done (recordHeader w code)
  else Panic ("invalid WriteHeader code " +:+ strconv.FormatInt code).

(** [Write]: status 200 is written first when none was; the bytes are added
    to the body. (The Content-Type a writer guesses from the first bytes when
    none is set is not recorded; nothing below reads it.) *)
Definition Write (w : ResponseWriter) (b : string) : ResponseWriter :=
  let w := if wroteHeader w then w else recordHeader w 200 in
  mkResponseWriter (HeaderMap w) (wroteHeader w) (Code w) (snapHeader w)
    (Body w +:+ b).

(** The headers of the response as sent (or as they would be sent now). *)
Definition SentHeader (w : ResponseWriter) : Header :=
  if wroteHeader w then snapHeader w else HeaderMap w.

Definition StatusTooManyRequests : Z := 429.
Definition StatusInternalServerError : Z := 500.

(** [http.HandlerFunc]: what a handler does to the response writer, unless
    it panics. *)
Definition HandlerFunc : Type :=
  ResponseWriter -> Request -> Outcome ResponseWriter.

End http.

(** ** Package net *)

Module net.

(** [net.IP]: a byte slice, [nil] (the empty list) when invalid, 16 bytes
    when returned by [ParseIP]. *)
Definition IP : Type := list Z.

Definition IPv4len : nat := 4.
Definition IPv6len : nat := 16.

Definition v4InV6Prefix : list Z := [0; 0; 0; 0; 0; 0; 0; 0; 0; 0; 255; 255].

Definition is_digit (c : ascii) : bool := in_range "0" "9" c.

(** One decimal field of a dotted quad: at least one digit, no leading zero
    before another digit, value at most 255. Returns the value and the text
    after the digits. *)
Fixpoint octet (s : string) (val : Z) (digLen : nat) : option (Z * string) :=
  match s with
  | String c s' =>
      if is_digit c then
        if Nat.eqb digLen 1 && (val =? 0) then None
        else
          let val' := val * 10 + (byte_of c - 48) in
          if 255 <? val' then None else octet s' val' (S digLen)
      else if Nat.eqb digLen 0 then None else Some (val, s)
  | EmptyString => if Nat.eqb digLen 0 then None else Some (val, s)
  end.

(** [more] further fields, each introduced by a dot, then the end. *)
Fixpoint dotted (more : nat) (s : string) : option (list Z) :=
  match more with
  | O => match s with EmptyString => Some [] | _ => None end
  | S more' =>
      match s with
      | String "." s' =>
          match octet s' 0 0 with
          | Some (v, rest) =>
              match dotted more' rest with
              | Some vs => Some (v :: vs)
              | None => None
              end
          | None => None
          end
      | _ => None
      end
  end.

(** The four bytes of [d.d.d.d]. *)
Definition parseIPv4Fields (s : string) : option (list Z) :=
  match octet s 0 0 with
  | Some (v, rest) =>
      match dotted 3 rest with
      | Some vs => Some (v :: vs)
      | None => None
      end
  | None => None
  end.

Definition parseIPv4 (s : string) : IP :=
  match parseIPv4Fields s with
  | Some p => v4InV6Prefix ++ p
  | None => []
  end.

Definition hexval (c : ascii) : option Z :=
  if in_range "0" "9" c then Some (byte_of c - 48)
  else if in_range "a" "f" c then Some (byte_of c - 97 + 10)
  else if in_range "A" "F" c then Some (byte_of c - 65 + 10)
  else None.

(** One hexadecimal group: one to four digits. Returns the value and the
    text after the digits. *)
Fixpoint xtoi (s : string) (acc : Z) (off : nat) : option (Z * string) :=
  match s with
  | String c s' =>
      match hexval c with
      | Some d => if (3 <? off)%nat then None else xtoi s' (acc * 16 + d) (S off)
      | None => if Nat.eqb off 0 then None else Some (acc, s)
      end
  | EmptyString => if Nat.eqb off 0 then None else Some (acc, s)
  end.

Definition starts_with (c : ascii) (s : string) : bool :=
  match s with
  | String a _ => Ascii.eqb a c
  | EmptyString => false
  end.

(** The loop of [parseIPv6]: [ip] holds the bytes read so far (fewer than
    16), [ellipsis] the byte position of [::] when it was seen. A result is
    returned only when the whole string was used. *)
Fixpoint parseIPv6_loop (fuel : nat) (s : string) (ip : list Z)
    (ellipsis : option nat) : option (list Z * option nat) :=
  match fuel with
  | O => None
  | S fuel' =>
      match xtoi s 0 0 with
      | None => None
      | Some (n, rest) =>
          if starts_with "." rest then
            if is_none ellipsis && negb (Nat.eqb (length ip) 12) then None
            else if (16 <? length ip + 4)%nat then None
            else
              match parseIPv4Fields s with
              | Some p => Some (ip ++ p, ellipsis)
              | None => None
              end
          else
            let ip' := ip ++ [Z.shiftr n 8; Z.land n 255] in
            match rest with
            | EmptyString => Some (ip', ellipsis)
            | String c rest1 =>
                if negb (Ascii.eqb c ":") then None
                else
                  match rest1 with
                  | EmptyString => None
                  | String ":" rest2 =>
                      match ellipsis with
                      | Some _ => None
                      | None =>
                          match rest2 with
                          | EmptyString => Some (ip', Some (length ip'))
                          | _ =>
                              if (length ip' <? 16)%nat
                              then parseIPv6_loop fuel' rest2 ip' (Some (length ip'))
                              else None
                          end
                      end
                  | _ =>
                      if (length ip' <? 16)%nat
                      then parseIPv6_loop fuel' rest1 ip' ellipsis
                      else None
                  end
            end
      end
  end.

(** The end of [parseIPv6]: a short address needs an ellipsis, which is
    filled with zero bytes; a full one must not have any. *)
Definition expand_ellipsis (ip : list Z) (ellipsis : option nat) : IP :=
  if (length ip <? 16)%nat then
    match ellipsis with
    | None => []
    | Some e => take e ip ++ replicate (16 - length ip) 0 ++ drop e ip
    end
  else
    match ellipsis with
    | None => ip
    | Some _ => []
    end.

Definition parseIPv6 (s : string) : IP :=
  match s with
  | String ":" (String ":" s') =>
      match s' with
      | EmptyString => replicate 16 0
      | _ =>
          match parseIPv6_loop 9 s' [] (Some 0%nat) with
          | Some (ip, e) => expand_ellipsis ip e
          | None => []
          end
      end
  | _ =>
      match parseIPv6_loop 9 s [] None with
      | Some (ip, e) => expand_ellipsis ip e
      | None => []
      end
  end.

(** The first of [.], [:] and [%] in the string decides how it is read. *)
Fixpoint ParseIP_scan (s whole : string) : IP :=
  match s with
  | EmptyString => []
  | String c s' =>
      if Ascii.eqb c "." then parseIPv4 whole
      else if Ascii.eqb c ":" then parseIPv6 whole
      else if Ascii.eqb c "%" then []
      else ParseIP_scan s' whole
  end.

(** [net.ParseIP]: dotted decimal IPv4, IPv6, or IPv4-mapped IPv6; [nil] for
    anything else, a 16-byte address otherwise. *)
Definition ParseIP (s : string) : IP := ParseIP_scan s s.

(** [IP.To4]: the four bytes of an IPv4 address, [nil] when the address is
    not one. *)
Definition To4 (ip : IP) : IP :=
  if Nat.eqb (length ip) IPv4len then ip
  else if Nat.eqb (length ip) IPv6len && bool_decide (take 12 ip = v4InV6Prefix)
  then drop 12 ip
  else [].

Definition hexdigit (d : Z) : ascii :=
  if d <? 10 then ascii_of_N (Z.to_N (48 + d)) else ascii_of_N (Z.to_N (97 + d - 10)).

(** Lower-case hexadecimal without leading zeros. *)
Fixpoint appendHex_from (fuel : nat) (v : Z) (acc : string) : string :=
  match fuel with
  | O => acc
  | S fuel' =>
      let acc' := String (hexdigit (v mod 16)) acc in
      if v <? 16 then acc' else appendHex_from fuel' (v / 16) acc'
  end.

Definition appendHex (v : Z) : string := appendHex_from 8 v EmptyString.

(** Two hexadecimal digits per byte. *)
Fixpoint hexString (b : list Z) : string :=
  match b with
  | [] => EmptyString
  | x :: b' =>
      String (hexdigit (Z.shiftr x 4)) (String (hexdigit (Z.land x 15)) (hexString b'))
  end.

(** The eight 16-bit groups of a 16-byte address. *)
Fixpoint groups (ip : list Z) : list Z :=
  match ip with
  | a :: b :: ip' => Z.lor (Z.shiftl a 8) b :: groups ip'
  | _ => []
  end.

Fixpoint zero_run (g : list Z) : nat :=
  match g with
  | 0 :: g' => S (zero_run g')
  | _ => O
  end.

(** The first longest run of at least two zero groups, as (start, length);
    length 0 when there is none. *)
Fixpoint longest_zero_run (g : list Z) (i : nat) (best : nat * nat) : nat * nat :=
  match g with
  | [] => best
  | _ :: g' =>
      let l := zero_run g in
      let best' := if (2 <=? l)%nat && (snd best <? l)%nat then (i, l) else best in
      longest_zero_run g' (S i) best'
  end.

(** The groups from index [i] on, with [::] in place of the run. *)
Fixpoint string6 (fuel i : nat) (g : list Z) (run : nat * nat) : string :=
  match fuel with
  | O => EmptyString
  | S fuel' =>
      if (8 <=? i)%nat then EmptyString
      else if (0 <? snd run)%nat && Nat.eqb i (fst run) then
        let i' := (fst run + snd run)%nat in
        "::" +:+
        (if (8 <=? i')%nat then EmptyString
         else appendHex (nth i' g 0) +:+ string6 fuel' (S i') g run)
      else
        (if (0 <? i)%nat then ":" else EmptyString)
        +:+ appendHex (nth i g 0) +:+ string6 fuel' (S i) g run
  end.

Definition dotted_quad (p : list Z) : string :=
  strconv.FormatInt (nth 0 p 0) +:+ "." +:+ strconv.FormatInt (nth 1 p 0) +:+ "."
  +:+ strconv.FormatInt (nth 2 p 0) +:+ "." +:+ strconv.FormatInt (nth 3 p 0).

(** [IP.String]: ["<nil>"] for the nil address, dotted decimal for an IPv4
    (or IPv4-mapped) one, the shortened IPv6 text otherwise. *)
Definition IP_String (ip : IP) : string :=
  if Nat.eqb (length ip) 0 then "<nil>"
  else if negb (Nat.eqb (length ip) IPv4len) && negb (Nat.eqb (length ip) IPv6len)
  then "?" +:+ hexString ip
  else if Nat.eqb (length (To4 ip)) IPv4len then dotted_quad (To4 ip)
  else string6 9 0 (groups ip) (longest_zero_run (groups ip) 0 (0%nat, 0%nat)).

Fixpoint IndexByte_from (s : string) (c : ascii) (i : Z) : Z :=
  match s with
  | EmptyString => -1
  | String a s' => if Ascii.eqb a c then i else IndexByte_from s' c (i + 1)
  end.

(** Index of the first [c] in [s], [-1] when there is none. *)
Definition IndexByte (s : string) (c : ascii) : Z := IndexByte_from s c 0.

Fixpoint last_from (s : string) (c : ascii) (i found : Z) : Z :=
  match s with
  | EmptyString => found
  | String a s' => last_from s' c (i + 1) (if Ascii.eqb a c then i else found)
  end.

(** Index of the last [c] in [s], [-1] when there is none. *)
Definition last (s : string) (c : ascii) : Z := last_from s c 0 (-1).

(** [s[i:j]] *)
Definition slice (s : string) (i j : Z) : string :=
  String.substring (Z.to_nat i) (Z.to_nat (j - i)) s.

Definition len (s : string) : Z := Z.of_nat (String.length s).

(** [net.SplitHostPort]: [host:port], [[host]:port]; the error is the reason
    of the [AddrError]. *)
Definition SplitHostPort (hostport : string) : (string * string) + string :=
  let missingPort := "missing port in address" in
  let tooManyColons := "too many colons in address" in
  let i := last hostport ":" in
  if i <? 0 then inr missingPort
  else
    let bracket :=
      if starts_with "[" hostport then
        let e := IndexByte hostport "]" in
        if e <? 0 then inr "missing ']' in address"
        else if e + 1 =? len hostport then inr missingPort
        else if e + 1 =? i then inl (slice hostport 1 e, 1, e + 1)
        else if starts_with ":" (slice hostport (e + 1) (len hostport))
        then inr tooManyColons
        else inr missingPort
      else
        let host := slice hostport 0 i in
        if 0 <=? IndexByte host ":" then inr tooManyColons
        else inl (host, 0, 0) in
    match bracket with
    | inr why => inr why
    | inl (host, j, k) =>
        if 0 <=? IndexByte (slice hostport j (len hostport)) "["
        then inr "unexpected '[' in address"
        else if 0 <=? IndexByte (slice hostport k (len hostport)) "]"
        then inr "unexpected ']' in address"
        else inl (host, slice hostport (i + 1) (len hostport))
    end.

End net.

(** ** Package go_limiter (the external limiter), as far as the middleware
    sees it *)

Module go_limiter.

(** [go_limiter.Limit] *)
Record Limit := mkLimit {
  Period : time.Duration;
  Algorithm : Z;
  Rate : Z;
  Burst : Z
}.

(** [go_limiter.Result]: the decision for one request. *)
Record Result := mkResult {
  Allowed : bool;
  Remaining : Z;
  RetryAfter : time.Duration;
  ResetAfter : time.Duration
}.

End go_limiter.

(** ** Package http_limiter *)

Import http.

(** A Go [error], by its [Error()] text. *)
Definition error : Type := string.

(** The calls the middleware makes out of its own code while it serves a
    request, in the order it makes them. *)
Inductive Event : Type :=
| CallAllow (key : string) (limit : go_limiter.Limit)
| CallNow
| CallNext (r : Request)
| CallHandler (r : Request)
| CallErrHandler (err : error) (r : Request).

Section Limiter.

(** [*redis.Client], the handle of the shared store, and the store's state. *)
Variable Client : Type.
Variable Store : Type.

(** [go_limiter.SlidingWindowAlgorithm], the default of [Config.Algorithm]. *)
Variable SlidingWindowAlgorithm : Z.

(** [Limiter.Allow] of go_limiter: decides on the store, which it may change;
    it yields a decision or an error. *)
Variable Allow :
  Client -> string -> go_limiter.Limit -> Store ->
  (go_limiter.Result + error) * Store.

Definition DefaultKeyPrefix : string := "http_limiter".

(** [Skipper] *)
Definition Skipper_t : Type := Request -> bool.

(** [Config]; a [nil] function or pointer is [None]. *)
Record Config := mkConfig {
  Skipper : option Skipper_t;
  Rediser : option Client;
  Max : Z;
  Burst : Z;
  StatusCode : Z;
  Message : string;
  Algorithm : Z;
  Prefix : string;
  SkipOnError : bool;
  Period : time.Duration;
  Key : option (Request -> string);
  Handler : option (ResponseWriter -> Request -> Outcome ResponseWriter);
  ErrHandler :
    option (error -> ResponseWriter -> Request -> Outcome ResponseWriter)
}.

(** [DefaultSkipper] returns false which processes the middleware. *)
Definition DefaultSkipper (r : Request) : bool := false.

(** [GetIP] returns IP address from request.
    It will lookup IP in X-Forwarded-For and X-Real-IP headers. *)
Definition GetIP (r : Request) : net.IP :=
  let ip := Header_Get (ReqHeader r) "X-Forwarded-For" in
  if negb (String.eqb ip "") then
    let parts := strings.SplitN ip "," 2 in
    let part := strings.TrimSpace (nth 0 parts "") in
    net.ParseIP part
  else
    let ip := strings.TrimSpace (Header_Get (ReqHeader r) "X-Real-IP") in
    if negb (String.eqb ip "") then net.ParseIP ip
    else
      let remoteAddr := strings.TrimSpace (RemoteAddr r) in
      match net.SplitHostPort remoteAddr with
      | inr _ => net.ParseIP remoteAddr
      | inl (host, _) => net.ParseIP host
      end.

Definition DefaultConfig : Config :=
  {| Skipper := Some DefaultSkipper;
     Rediser := None;
     Max := 10;
     Burst := 10;
     Prefix := DefaultKeyPrefix;
     Algorithm := SlidingWindowAlgorithm;
     StatusCode := StatusTooManyRequests;
     Message := "Too many requests, please try again later.";
     SkipOnError := false;
     Period := time.Minute;
     Key := Some (fun r => net.IP_String (GetIP r));
     Handler := None;
     ErrHandler := None |}.

(** The state the middleware runs in: the shared store, the wall clock, and
    the calls made so far. *)
Record World := mkWorld {
  store : Store;
  clock : time.Time;
  calls : list Event
}.

(** A computation on the world that may panic. *)
Definition M (A : Type) : Type := World -> Outcome A * World.

Definition ret {A : Type} (a : A) : M A := fun s => (Done a, s).

Definition bind {A B : Type} (m : M A) (f : A -> M B) : M B :=
  fun s =>
    match m s with
    | (Done a, s') => f a s'
    | (Panic msg, s') => (Panic msg, s')
    end.

Notation "x <- m ;; k" := (bind m (fun x => k))
  (at level 100, m at next level, right associativity).

Definition log (e : Event) : M unit :=
  fun s => (Done tt, mkWorld (store s) (clock s) (calls s ++ [e])).

(** Calling a nil function value. *)
Definition nil_call {A : Type} : M A :=
  fun s => (Panic "invalid memory address or nil pointer dereference", s).

(** [limiter.Allow(key, limit)] *)
Definition limiter_Allow (limiter : Client) (key : string)
    (limit : go_limiter.Limit) : M (go_limiter.Result + error) :=
  _ <- log (CallAllow key limit) ;;
  fun s =>
    let '(res, st) := Allow limiter key limit (store s) in
    (Done res, mkWorld st (clock s) (calls s)).

(** [time.Now()] *)
Definition time_Now : M time.Time :=
  _ <- log CallNow ;;
  fun s => (Done (clock s), s).

(** The outcome of a call that does not touch the world. *)
Definition call {A : Type} (o : Outcome A) : M A := fun s => (o, s).

(** [next.ServeHTTP(w, r)] *)
Definition next_ServeHTTP (next : HandlerFunc) (w : ResponseWriter)
    (r : Request) : M ResponseWriter :=
  _ <- log (CallNext r) ;;
  call (next w r).

(** [config.Skipper(r)] *)
Definition config_Skipper (config : Config) (r : Request) : M bool :=
  match Skipper config with
  | Some f => ret (f r)
  | None => nil_call
  end.

(** [config.Key(r)] *)
Definition config_Key (config : Config) (r : Request) : M string :=
  match Key config with
  | Some f => ret (f r)
  | None => nil_call
  end.

(** [config.Handler(w, r)] *)
Definition config_Handler (config : Config) (w : ResponseWriter)
    (r : Request) : M ResponseWriter :=
  match Handler config with
  | Some f => _ <- log (CallHandler r) ;; call (f w r)
  | None => nil_call
  end.

(** [config.ErrHandler(err, w, r)] *)
Definition config_ErrHandler (config : Config) (err : error)
    (w : ResponseWriter) (r : Request) : M ResponseWriter :=
  match ErrHandler config with
  | Some f => _ <- log (CallErrHandler err r) ;; call (f err w r)
  | None => nil_call
  end.

(** The local [config] of [NewWithConfig] once every zero field has got its
    default. The default handlers are closures over this [config], so they
    read the status code and the message fixed before them. *)
Definition NewWithConfig_config (config : Config) : Config :=
  let skipper :=
    match Skipper config with None => Skipper DefaultConfig | f => f end in
  let max := if Max config =? 0 then Max DefaultConfig else Max config in
  let burst := if Burst config =? 0 then Burst DefaultConfig else Burst config in
  let statusCode :=
    if StatusCode config =? 0 then StatusCode DefaultConfig else StatusCode config in
  let message :=
    if String.eqb (Message config) "" then Message DefaultConfig else Message config in
  let algorithm :=
    if Algorithm config =? 0 then Algorithm DefaultConfig else Algorithm config in
  let prefix :=
    if String.eqb (Prefix config) "" then Prefix DefaultConfig else Prefix config in
  let period := if Period config =? 0 then Period DefaultConfig else Period config in
  let key := match Key config with None => Key DefaultConfig | f => f end in
  let handler :=
    match Handler config with
    | None =>
        Some (fun w (_ : Request) =>
                and_then (WriteHeader w statusCode)
                  (fun w => Done (Write w message)))
    | f => f
    end in
  let errHandler :=
    match ErrHandler config with
    | None =>
        Some (fun (err : error) w (_ : Request) =>
                and_then (WriteHeader w StatusInternalServerError)
                  (fun w => Done (Write w err)))
    | f => f
    end in
  {| Skipper := skipper;
     Rediser := Rediser config;
     Max := max;
     Burst := burst;
     StatusCode := statusCode;
     Message := message;
     Algorithm := algorithm;
     Prefix := prefix;
     SkipOnError := SkipOnError config;
     Period := period;
     Key := key;
     Handler := handler;
     ErrHandler := errHandler |}.

(** The local [limit] of [NewWithConfig]. *)
Definition NewWithConfig_limit (config : Config) : go_limiter.Limit :=
  {| go_limiter.Period := Period config;
     go_limiter.Algorithm := Algorithm config;
     go_limiter.Rate := Max config;
     go_limiter.Burst := Burst config |}.

(** The request handler [NewWithConfig] returns for the inner handler
    [next]: the closure over [config], [limiter] and [limit]. *)
Definition NewWithConfig_handler (config : Config) (limiter : Client)
    (limit : go_limiter.Limit) (next : HandlerFunc)
    (w : ResponseWriter) (r : Request) : M ResponseWriter :=
  skip <- config_Skipper config r ;;
  if skip : bool then next_ServeHTTP next w r
  else
    key <- config_Key config r ;;
    res <- limiter_Allow limiter key limit ;;
    match res with
    | inr err =>
        if SkipOnError config then next_ServeHTTP next w r
        else config_ErrHandler config err w r
    | inl result =>
        if negb (go_limiter.Allowed result) then
          now <- time_Now ;;
          let w :=
            SetHeader w "Retry-After"
              (strconv.FormatInt
                 (time.Unix (time.Add now (go_limiter.RetryAfter result)))) in
          config_Handler config w r
        else
          let w := SetHeader w "X-RateLimit-Limit" (strconv.Itoa (Max config)) in
          let w :=
            SetHeader w "X-RateLimit-Remaining"
              (strconv.FormatInt (go_limiter.Remaining result)) in
          now <- time_Now ;;
          let w :=
            SetHeader w "X-RateLimit-Reset"
              (strconv.FormatInt
                 (time.Unix (time.Add now (go_limiter.ResetAfter result)))) in
          next_ServeHTTP next w r
    end.

(** A middleware: from the inner handler to the wrapped one. *)
Definition Middleware : Type :=
  HandlerFunc -> ResponseWriter -> Request -> M ResponseWriter.

(** [NewWithConfig] *)
Definition NewWithConfig (config : Config) : Outcome Middleware :=
  match Rediser config with
  | None => Panic "redis client is missing"
  | Some rediser =>
      let config := NewWithConfig_config config in
      let limiter := rediser in
      let limit := NewWithConfig_limit config in
      Done (fun next w r => NewWithConfig_handler config limiter limit next w r)
  end.

(** [New] *)
Definition New (rediser : option Client) : Outcome Middleware :=
  let config := DefaultConfig in
  let config :=
    {| Skipper := Skipper config;
       Rediser := rediser;
       Max := Max config;
       Burst := Burst config;
       StatusCode := StatusCode config;
       Message := Message config;
       Algorithm := Algorithm config;
       Prefix := Prefix config;
       SkipOnError := SkipOnError config;
       Period := Period config;
       Key := Key config;
       Handler := Handler config;
       ErrHandler := ErrHandler config |} in
  NewWithConfig config.

End Limiter.

Arguments mkConfig {Client}.
Arguments Skipper {Client} c.
Arguments Rediser {Client} c.
Arguments Max {Client} c.
Arguments Burst {Client} c.
Arguments StatusCode {Client} c.
Arguments Message {Client} c.
Arguments Algorithm {Client} c.
Arguments Prefix {Client} c.
Arguments SkipOnError {Client} c.
Arguments Period {Client} c.
Arguments Key {Client} c.
Arguments Handler {Client} c.
Arguments ErrHandler {Client} c.
Arguments DefaultConfig {Client} SlidingWindowAlgorithm.
Arguments mkWorld {Store}.
Arguments store {Store} w.
Arguments clock {Store} w.
Arguments calls {Store} w.
Arguments NewWithConfig_config {Client} SlidingWindowAlgorithm config.
Arguments NewWithConfig_limit {Client} config.
Arguments NewWithConfig_handler {Client Store} Allow config limiter limit next w r.
Arguments NewWithConfig {Client Store} SlidingWindowAlgorithm Allow config.
Arguments New {Client Store} SlidingWindowAlgorithm Allow rediser.

(** ** Vocabulary of the properties *)

(** The four callbacks of a configuration in which none is nil. *)
Definition callbacks {Client : Type} (c : Config Client)
    (skipper : Skipper_t) (key : Request -> string)
    (reject : ResponseWriter -> Request -> Outcome ResponseWriter)
    (onError : error -> ResponseWriter -> Request -> Outcome ResponseWriter)
    : Prop :=
  Skipper c = Some skipper /\ Key c = Some key /\
  Handler c = Some reject /\ ErrHandler c = Some onError.

(** The names of the fields of a configuration that hold the zero value of
    their Go type. *)
Definition zero_valued_fields {Client : Type} (c : Config Client) : list string :=
  (if is_none (Skipper c) then ["Skipper"] else [])
  ++ (if is_none (Rediser c) then ["Rediser"] else [])
  ++ (if Max c =? 0 then ["Max"] else [])
  ++ (if Burst c =? 0 then ["Burst"] else [])
  ++ (if StatusCode c =? 0 then ["StatusCode"] else [])
  ++ (if String.eqb (Message c) "" then ["Message"] else [])
  ++ (if Algorithm c =? 0 then ["Algorithm"] else [])
  ++ (if String.eqb (Prefix c) "" then ["Prefix"] else [])
  ++ (if SkipOnError c then [] else ["SkipOnError"])
  ++ (if Period c =? 0 then ["Period"] else [])
  ++ (if is_none (Key c) then ["Key"] else [])
  ++ (if is_none (Handler c) then ["Handler"] else [])
  ++ (if is_none (ErrHandler c) then ["ErrHandler"] else []).

(** The configuration with another key prefix. *)
Definition with_Prefix {Client : Type} (prefix : string) (c : Config Client)
    : Config Client :=
  mkConfig (Skipper c) (Rediser c) (Max c) (Burst c) (StatusCode c) (Message c)
    (Algorithm c) prefix (SkipOnError c) (Period c) (Key c) (Handler c)
    (ErrHandler c).

(** The configuration with another status code and message for rejected
    requests. *)
Definition with_reject_text {Client : Type} (code : Z) (message : string)
    (c : Config Client) : Config Client :=
  mkConfig (Skipper c) (Rediser c) (Max c) (Burst c) code message
    (Algorithm c) (Prefix c) (SkipOnError c) (Period c) (Key c) (Handler c)
    (ErrHandler c).

(** [Config{Rediser: rediser}]: every other field at its zero value. *)
Definition handle_only {Client : Type} (rediser : option Client) : Config Client :=
  mkConfig None rediser 0 0 0 "" 0 "" false 0 None None None.

(** Whether the first byte of a string is a decimal digit. *)
Definition starts_with_digit (s : string) : bool :=
  match s with
  | String c _ => net.is_digit c
  | EmptyString => false
  end.

(** A byte: [0 <= b <= 255]. *)
Definition is_byte (b : Z) : Prop := 0 <= b <= 255.

(** The ways a request can end. *)
Inductive Path : Type :=
| PathSkipped
| PathErrored
| PathRejected
| PathAllowed.

(** The path a sequence of calls belongs to, if it is one of the four. *)
Definition path_of (evs : list Event) : option Path :=
  match evs with
  | [CallNext _] => Some PathSkipped
  | [CallAllow _ _; CallNext _] => Some PathErrored
  | [CallAllow _ _; CallErrHandler _ _] => Some PathErrored
  | [CallAllow _ _; CallNow; CallHandler _] => Some PathRejected
  | [CallAllow _ _; CallNow; CallNext _] => Some PathAllowed
  | _ => None
  end.

Definition is_limiter_call (e : Event) : bool :=
  match e with
  | CallAllow _ _ => true
  | _ => false
  end.

(** The calls that end a request: the inner handler, the reject handler,
    the error handler. *)
Definition is_terminal_call (e : Event) : bool :=
  match e with
  | CallNext _ | CallHandler _ | CallErrHandler _ _ => true
  | _ => false
  end.

Definition count_calls (p : Event -> bool) (evs : list Event) : nat :=
  length (filter (fun e => p e = true) evs).

(** [seg] is the part of [s] before its first [sep], all of [s] when it has
    none. *)
Definition first_segment (s : string) (sep : ascii) (seg : string) : Prop :=
  contains_byte sep seg = false
  /\ (s = seg \/ exists rest, s = seg +:+ String sep rest).

(** The key derivation as the specification words its third step: the
    remote address itself, not trimmed, has its port stripped or is parsed
    as it is. The first two steps are those of [GetIP]. *)
Definition GetIP_as_specified (r : Request) : net.IP :=
  let xff := Header_Get (ReqHeader r) "X-Forwarded-For" in
  if negb (String.eqb xff "") then
    net.ParseIP (strings.TrimSpace (nth 0 (strings.SplitN xff "," 2) ""))
  else
    let xri := strings.TrimSpace (Header_Get (ReqHeader r) "X-Real-IP") in
    if negb (String.eqb xri "") then net.ParseIP xri
    else
      match net.SplitHostPort (RemoteAddr r) with
      | inr _ => net.ParseIP (RemoteAddr r)
      | inl (host, _) => net.ParseIP host
      end.

(** ** A small limiter to run the middleware on

    A fixed-window counter per key; the store is [None] while it cannot be
    reached. It stands for the external limiter in the examples only. *)

Definition counter_Allow (_ : unit) (key : string) (limit : go_limiter.Limit)
    (st : option (gmap string Z)) :
    (go_limiter.Result + error) * option (gmap string Z) :=
  match st with
  | None => (inr "dial tcp 127.0.0.1:6379: connect: connection refused", None)
  | Some m =>
      let used := default 0 (m !! key) in
      if used <? go_limiter.Rate limit then
        (inl (go_limiter.mkResult true (go_limiter.Rate limit - used - 1) (-1)
                (go_limiter.Period limit)),
         Some (<[key := used + 1]> m))
      else
        (inl (go_limiter.mkResult false 0 (go_limiter.Period limit)
                (go_limiter.Period limit)),
         Some m)
  end.

(** A request with the given headers and remote address. *)
Definition request (headers : list (string * string)) (remote : string) : Request :=
  mkRequest "GET" "/"
    (fold_left (fun h kv => Header_Set h (fst kv) (snd kv)) headers ∅) remote.

(** The configuration of the repository's example program, without its
    algorithm: 3 requests per 10 seconds. *)
Definition example_config : Config unit :=
  mkConfig None (Some tt) 3 3 0 "" 0 "" false (10 * time.Second) None None None.

(** The same limits under a key prefix of its own. *)
Definition tenant_config : Config unit := with_Prefix "tenant-a" example_config.

(** The same limits, letting requests through while the store fails. *)
Definition lenient_config : Config unit :=
  mkConfig None (Some tt) 3 3 0 "" 0 "" true (10 * time.Second) None None None.

(** A configuration with a reject handler of its own. *)
Definition teapot_config : Config unit :=
  mkConfig None (Some tt) 3 3 0 "" 0 "" false (10 * time.Second) None
    (Some (fun w _ =>
             and_then (WriteHeader w 418) (fun w => Done (Write w "slow down"))))
    None.


(** A configuration with the store handle only. *)
Definition bare_config : Config unit :=
  mkConfig None (Some tt) 0 0 0 "" 0 "" false 0 None None None.

(** A configuration that lets every GET request through unchecked. *)
Definition skip_get_config : Config unit :=
  mkConfig (Some (fun r => String.eqb (Method r) "GET")) (Some tt) 3 3 0 "" 0 ""
    false (10 * time.Second) None None None.

(** 3 April 2020, 13:02:02.5 UTC. *)
Definition example_clock : time.Time := time.mkTime 1585918922 500000000.

Definition example_world (st : option (gmap string Z)) : World (option (gmap string Z)) :=
  mkWorld st example_clock [].

Definition hello : HandlerFunc := fun w _ => Done (Write w "hello world").

(** * Properties *)

Arguments SetHeader : simpl never.
Arguments Write : simpl never.
Arguments WriteHeader : simpl never.
Arguments strconv.FormatInt : simpl never.
Arguments strconv.Itoa : simpl never.
Arguments time.Add : simpl never.
Arguments net.ParseIP : simpl never.
Arguments net.IP_String : simpl never.
Arguments strings.TrimSpace : simpl never.
Arguments strings.SplitN : simpl never.
Arguments net.SplitHostPort : simpl never.

(** ** Decimal text and Unix time *)

Lemma ParseInt_FormatInt (z : Z) :
  strconv.ParseInt (strconv.FormatInt z) = Some z.
Proof.
  unfold strconv.ParseInt, strconv.FormatInt.
  rewrite NilZero.isi.
  - now rewrite DecimalZ.of_to.
  - destruct z as [|p|p]; cbn; try discriminate.
    intros [= H]. now apply DecimalPos.Unsigned.to_uint_nonnil in H.
  - destruct z as [|p|p]; cbn; try discriminate.
    intros [= H]. now apply DecimalPos.Unsigned.to_uint_nonnil in H.
Qed.

Lemma rem_second_bounds (d : Z) :
  -1000000000 < Z.rem d 1000000000 < 1000000000.
Proof.
  pose proof (Z.rem_bound_abs d 1000000000 ltac:(lia)). lia.
Qed.

(** [t.Add(d).Unix()] is the instant [t + d], in nanoseconds, rounded down
    to whole seconds. *)
Lemma Unix_Add (t : time.Time) (d : time.Duration) :
  time.valid t ->
  time.Unix (time.Add t d) = (time.UnixNano t + d) / 1000000000.
Proof.
  unfold time.valid, time.Unix, time.Add, time.UnixNano.
  intros Hv.
  pose proof (Z.quot_rem' d 1000000000) as Hd.
  assert (Hr : -1000000000 < Z.rem d 1000000000 < 1000000000).
  { apply rem_second_bounds. }
  set (q := Z.quot d 1000000000) in *.
  set (m := Z.rem d 1000000000) in *.
  destruct (Z.leb_spec 1000000000 (time.nsec t + m)).
  - cbn [time.sec].
    apply Z.div_unique with (r := time.nsec t + m - 1000000000); lia.
  - destruct (Z.ltb_spec (time.nsec t + m) 0); cbn [time.sec].
    + apply Z.div_unique with (r := time.nsec t + m + 1000000000); lia.
    + apply Z.div_unique with (r := time.nsec t + m); lia.
Qed.


(** ** The header map *)

Lemma Header_Get_Set (h : Header) (key value : string) :
  Header_Get (Header_Set h key value) key = value.
Proof.
  unfold Header_Get, Header_Set. now rewrite lookup_insert_eq.
Qed.

Lemma Header_Get_Set_other (h : Header) (key key' value : string) :
  CanonicalMIMEHeaderKey key <> CanonicalMIMEHeaderKey key' ->
  Header_Get (Header_Set h key value) key' = Header_Get h key'.
Proof.
  intros Hne. unfold Header_Get, Header_Set. now rewrite lookup_insert_ne.
Qed.

Lemma HeaderMap_SetHeader (w : ResponseWriter) (key value : string) :
  HeaderMap (SetHeader w key value) = Header_Set (HeaderMap w) key value.
Proof. reflexivity. Qed.

(** A handler that sends a valid status and a text on a writer that has
    sent nothing yet. *)
Lemma Write_WriteHeader_fresh (w : ResponseWriter) (code : Z) (text : string) :
  wroteHeader w = false -> checkWriteHeaderCode code = true ->
  exists w',
    and_then (WriteHeader w code) (fun w0 => Done (Write w0 text)) = Done w'
    /\ Code w' = code /\ Body w' = Body w +:+ text
    /\ SentHeader w' = HeaderMap w /\ wroteHeader w' = true.
Proof.
  intros Hw Hc. unfold WriteHeader. rewrite Hw, Hc. cbn [and_then].
  eexists. split; [reflexivity|]. cbn. auto.
Qed.


(** On a writer whose header was written already the status is kept and the
    text is added. *)
Lemma Write_WriteHeader_late (w : ResponseWriter) (code : Z) (text : string) :
  wroteHeader w = true ->
  and_then (WriteHeader w code) (fun w0 => Done (Write w0 text))
  = Done (Write w text).
Proof. intros Hw. unfold WriteHeader. now rewrite Hw. Qed.

(** ** Splitting host and port *)

Lemma append_cons (c : ascii) (a b : string) :
  String c a +:+ b = String c (a +:+ b).
Proof. reflexivity. Qed.

Lemma append_nil (b : string) : "" +:+ b = b.
Proof. reflexivity. Qed.

Lemma substring_app_l (a b : string) :
  String.substring 0 (String.length a) (a +:+ b) = a.
Proof.
  induction a as [|c a IH].
  - rewrite append_nil. destruct b; reflexivity.
  - rewrite append_cons. cbn. now rewrite IH.
Qed.

Lemma substring_app_r (a b : string) (n m : nat) :
  String.substring (String.length a + n) m (a +:+ b) = String.substring n m b.
Proof.
  induction a as [|c a IH]; [reflexivity|].
  rewrite append_cons. cbn. exact IH.
Qed.

Lemma substring_whole (s : string) :
  String.substring 0 (String.length s) s = s.
Proof. induction s as [|c s IH]; cbn; [reflexivity|now rewrite IH]. Qed.

Lemma length_append (a b : string) :
  String.length (a +:+ b) = (String.length a + String.length b)%nat.
Proof.
  induction a as [|c a IH]; [reflexivity|].
  rewrite append_cons. cbn. now rewrite IH.
Qed.

Lemma append_same_length (a1 a2 b1 b2 : string) :
  a1 +:+ b1 = a2 +:+ b2 -> String.length a1 = String.length a2 ->
  a1 = a2 /\ b1 = b2.
Proof.
  revert a2. induction a1 as [|c a1 IH]; intros [|c2 a2] H Hl;
    try discriminate.
  - now split.
  - rewrite !append_cons in H. injection H as -> H. injection Hl as Hl.
    destruct (IH a2 H Hl) as [-> ->]. now split.
Qed.

Lemma slice_prefix (a b : string) :
  net.slice (a +:+ b) 0 (net.len a) = a.
Proof.
  unfold net.slice, net.len. rewrite Z.sub_0_r, Nat2Z.id. apply substring_app_l.
Qed.

Lemma slice_after_byte (a b : string) (c : ascii) :
  net.slice (a +:+ String c b) (net.len a + 1) (net.len (a +:+ String c b)) = b.
Proof.
  unfold net.slice, net.len. rewrite length_append. cbn [String.length].
  replace (Z.to_nat (Z.of_nat (String.length a) + 1))
    with (String.length a + 1)%nat by lia.
  replace (Z.to_nat _) with (String.length b) by lia.
  rewrite substring_app_r. cbn. apply substring_whole.
Qed.

Lemma slice_inside (c : ascii) (h rest : string) :
  net.slice (String c (h +:+ rest)) 1 (net.len (String c h)) = h.
Proof.
  unfold net.slice, net.len. cbn [String.length].
  replace (Z.to_nat 1) with 1%nat by lia.
  replace (Z.to_nat _) with (String.length h) by lia.
  cbn [String.substring]. apply substring_app_l.
Qed.

(** The first occurrence of a byte cuts the string in two. *)
Lemma IndexByte_from_spec (s : string) (c : ascii) (i : Z) :
  (net.IndexByte_from s c i = -1 /\ contains_byte c s = false)
  \/ exists a b,
       s = a +:+ String c b /\ contains_byte c a = false
       /\ net.IndexByte_from s c i = i + net.len a.
Proof.
  revert i. induction s as [|x s IH]; intros i; cbn.
  - now left.
  - destruct (Ascii.eqb_spec x c) as [->|Hne].
    + right. exists "", s. unfold net.len. cbn. repeat split. lia.
    + destruct (IH (i + 1)) as [[H1 H2]|(a & b & -> & Ha & Hi)].
      * left. now split.
      * right. exists (String x a), b. cbn.
        destruct (Ascii.eqb_spec x c); [contradiction|].
        repeat split; [exact Ha|]. rewrite Hi. unfold net.len. cbn [String.length].
        lia.
Qed.

(** The last occurrence of a byte cuts the string in two. *)
Lemma last_from_spec (s : string) (c : ascii) (i found : Z) :
  (net.last_from s c i found = found /\ contains_byte c s = false)
  \/ exists a b,
       s = a +:+ String c b /\ contains_byte c b = false
       /\ net.last_from s c i found = i + net.len a.
Proof.
  revert i found. induction s as [|x s IH]; intros i found; cbn.
  - now left.
  - destruct (Ascii.eqb_spec x c) as [->|Hne].
    + destruct (IH (i + 1) i) as [[H1 H2]|(a & b & -> & Hb & Hi)].
      * right. exists "", s. unfold net.len. cbn. repeat split; [exact H2|lia].
      * right. exists (String c a), b. cbn. repeat split; [exact Hb|].
        rewrite Hi. unfold net.len. cbn [String.length]. lia.
    + destruct (IH (i + 1) found) as [[H1 H2]|(a & b & -> & Hb & Hi)].
      * left. now split.
      * right. exists (String x a), b. cbn. repeat split; [exact Hb|].
        rewrite Hi. unfold net.len. cbn [String.length]. lia.
Qed.

Lemma len_nonneg (s : string) : 0 <= net.len s.
Proof. unfold net.len. lia. Qed.

(** What [SplitHostPort] accepts is [host:port] or [[host]:port], and it
    returns that host and that port. *)
Lemma SplitHostPort_spec (hostport host port : string) :
  net.SplitHostPort hostport = inl (host, port) ->
  hostport = host +:+ String ":" port
  \/ hostport = String "[" (host +:+ String "]" (String ":" port)).
Proof.
  unfold net.SplitHostPort, net.last.
  destruct (last_from_spec hostport ":" 0 (-1)) as [[-> _]|(a & b & Hs & Hb & ->)];
    [discriminate|].
  pose proof (len_nonneg a) as Ha0.
  destruct (Z.ltb_spec (0 + net.len a) 0); [lia|].
  rewrite Z.add_0_l.
  assert (Hport : net.slice hostport (net.len a + 1) (net.len hostport) = b)
    by (rewrite Hs; apply slice_after_byte).
  destruct (net.starts_with "[" hostport) eqn:Hbr.
  - unfold net.IndexByte.
    destruct (IndexByte_from_spec hostport "]" 0) as [[-> _]|(a' & b' & Hs' & Ha' & ->)];
      [discriminate|].
    pose proof (len_nonneg a') as Ha'0.
    destruct (Z.ltb_spec (0 + net.len a') 0); [lia|].
    rewrite Z.add_0_l.
    destruct (Z.eqb_spec (net.len a' + 1) (net.len hostport)); [discriminate|].
    destruct (Z.eqb_spec (net.len a' + 1) (net.len a)) as [He|];
      [|destruct (net.starts_with ":" _); discriminate].
    destruct (0 <=? _); [discriminate|].
    destruct (0 <=? _); [discriminate|].
    intros [= <- <-]. rewrite Hport. right.
    assert (Hpre : a = a' +:+ String "]" "" /\ String ":" b = b').
    { apply append_same_length.
      - rewrite <- Hs. rewrite Hs'. clear.
        induction a' as [|x a' IH]; [reflexivity|].
        rewrite !append_cons. now rewrite <- IH.
      - unfold net.len in He. rewrite length_append. cbn [String.length]. lia. }
    destruct Hpre as [_ <-].
    rewrite Hs' in Hbr. rewrite Hs'.
    destruct a' as [|x h].
    + rewrite append_nil in Hbr. discriminate.
    + rewrite append_cons in Hbr |- *. cbn [net.starts_with] in Hbr.
      destruct (Ascii.eqb_spec x "["); [subst x|discriminate].
      now rewrite slice_inside.
  - assert (Hhost : net.slice hostport 0 (net.len a) = a)
      by (rewrite Hs; apply slice_prefix).
    rewrite Hhost.
    destruct (0 <=? net.IndexByte a ":"); [discriminate|].
    destruct (0 <=? _); [discriminate|].
    destruct (0 <=? _); [discriminate|].
    intros [= <- <-]. rewrite Hport. now left.
Qed.

(** ** Parsed addresses *)

Lemma dotted_length (more : nat) (s : string) (vs : list Z) :
  net.dotted more s = Some vs -> length vs = more.
Proof.
  revert s vs. induction more as [|more IH]; intros s vs; cbn.
  - destruct s; [intros [= <-]; reflexivity|discriminate].
  - destruct s as [|c s]; [discriminate|].
    destruct (Ascii.eqb_spec c "."); [subst c|].
    + destruct (net.octet s 0 0) as [[v rest]|]; [|discriminate].
      destruct (net.dotted more rest) as [vs'|] eqn:Hd; [|discriminate].
      intros [= <-]. cbn. f_equal. now apply IH with rest.
    + destruct c as [[] [] [] [] [] [] [] []]; try discriminate; contradiction.
Qed.

Lemma parseIPv4Fields_length (s : string) (p : list Z) :
  net.parseIPv4Fields s = Some p -> length p = 4%nat.
Proof.
  unfold net.parseIPv4Fields.
  destruct (net.octet s 0 0) as [[v rest]|]; [|discriminate].
  destruct (net.dotted 3 rest) as [vs|] eqn:Hd; [|discriminate].
  intros [= <-]. cbn. f_equal. now apply dotted_length with rest.
Qed.

(** The loop of [parseIPv6] never reads more than 16 bytes, and an ellipsis
    lies within what was read. *)
Lemma parseIPv6_loop_length (fuel : nat) :
  forall (s : string) (ip : list Z) (e : option nat) ip' e',
    Nat.Even (length ip) -> (length ip < 16)%nat ->
    (forall n, e = Some n -> (n <= length ip)%nat) ->
    net.parseIPv6_loop fuel s ip e = Some (ip', e') ->
    (length ip' <= 16)%nat /\ (forall n, e' = Some n -> (n <= length ip')%nat).
Proof.
  induction fuel as [|fuel IH]; intros s ip e ip' e' [k Hk] Hlt He;
    cbn [net.parseIPv6_loop]; [discriminate|].
  destruct (net.xtoi s 0 0) as [[n rest]|]; [|discriminate].
  destruct (net.starts_with "." rest).
  { destruct (is_none e && negb (Nat.eqb (length ip) 12)); [discriminate|].
    destruct (Nat.ltb_spec 16 (length ip + 4)); [discriminate|].
    destruct (net.parseIPv4Fields s) as [p|] eqn:Hp; [|discriminate].
    intros [= <- <-]. apply parseIPv4Fields_length in Hp.
    rewrite length_app, Hp. split; [lia|].
    intros m Hm. specialize (He m Hm). lia. }
  assert (Hlen : length (ip ++ [Z.shiftr n 8; Z.land n 255]) = (length ip + 2)%nat)
    by (rewrite length_app; reflexivity).
  assert (Heven : Nat.Even (length (ip ++ [Z.shiftr n 8; Z.land n 255])))
    by (exists (S k); lia).
  destruct rest as [|c rest1].
  { intros [= <- <-]. split; [lia|]. intros m Hm. specialize (He m Hm). lia. }
  destruct (Ascii.eqb c ":"); [cbn [negb]|discriminate].
  destruct rest1 as [|c1 rest2]; [discriminate|].
  destruct (Ascii.eqb_spec c1 ":") as [->|Hne].
  - destruct e as [m|]; [discriminate|].
    destruct rest2 as [|c2 rest3].
    + intros [= <- <-]. split; [lia|]. intros m [= <-]. lia.
    + destruct (Nat.ltb_spec (length (ip ++ [Z.shiftr n 8; Z.land n 255])) 16);
        [|discriminate].
      apply IH; [exact Heven|assumption|]. intros m [= <-]. lia.
  - assert (Hstep :
      (if (length (ip ++ [Z.shiftr n 8; Z.land n 255]) <? 16)%nat
       then net.parseIPv6_loop fuel (String c1 rest2)
              (ip ++ [Z.shiftr n 8; Z.land n 255]) e
       else None) = Some (ip', e') ->
      (length ip' <= 16)%nat /\ (forall m, e' = Some m -> (m <= length ip')%nat)).
    { destruct (Nat.ltb_spec (length (ip ++ [Z.shiftr n 8; Z.land n 255])) 16);
        [|discriminate].
      apply IH; [exact Heven|assumption|].
      intros m Hm. specialize (He m Hm). lia. }
    destruct c1 as [[] [] [] [] [] [] [] []]; try exact Hstep; contradiction.
Qed.

Lemma expand_ellipsis_length (ip : list Z) (e : option nat) :
  (length ip <= 16)%nat -> (forall n, e = Some n -> (n <= length ip)%nat) ->
  net.expand_ellipsis ip e = [] \/ length (net.expand_ellipsis ip e) = 16%nat.
Proof.
  intros Hle He. unfold net.expand_ellipsis.
  destruct (Nat.ltb_spec (length ip) 16).
  - destruct e as [n|]; [|now left]. right.
    specialize (He n eq_refl).
    rewrite !length_app, length_take, length_replicate, length_drop. lia.
  - destruct e; [now left|]. right. lia.
Qed.

Lemma parseIPv6_length (s : string) :
  net.parseIPv6 s = [] \/ length (net.parseIPv6 s) = 16%nat.
Proof.
  assert (Hloop : forall s0 e0,
    (forall n, e0 = Some n -> (n <= 0)%nat) ->
    match net.parseIPv6_loop 9 s0 [] e0 with
    | Some (ip, e) => net.expand_ellipsis ip e
    | None => []
    end = []
    \/ length match net.parseIPv6_loop 9 s0 [] e0 with
              | Some (ip, e) => net.expand_ellipsis ip e
              | None => []
              end = 16%nat).
  { intros s0 e0 He0.
    destruct (net.parseIPv6_loop 9 s0 [] e0) as [[ip e]|] eqn:Hl; [|now left].
    apply parseIPv6_loop_length in Hl;
      [|exists 0%nat; reflexivity|cbn; lia|exact He0].
    destruct Hl as [H1 H2]. now apply expand_ellipsis_length. }
  unfold net.parseIPv6.
  destruct s as [|c s]; [apply Hloop; discriminate|].
  destruct (Ascii.eqb_spec c ":") as [->|Hc].
  - destruct s as [|c' s]; [apply Hloop; discriminate|].
    destruct (Ascii.eqb_spec c' ":") as [->|Hc'].
    + destruct s; [now right|]. apply Hloop. intros n [= <-]. lia.
    + destruct c' as [[] [] [] [] [] [] [] []];
        try (apply Hloop; discriminate); contradiction.
  - destruct c as [[] [] [] [] [] [] [] []];
      try (apply Hloop; discriminate); contradiction.
Qed.

Lemma ParseIP_scan_length (s whole : string) :
  net.ParseIP_scan s whole = [] \/ length (net.ParseIP_scan s whole) = 16%nat.
Proof.
  induction s as [|c s IH]; cbn [net.ParseIP_scan]; [now left|].
  destruct (Ascii.eqb c ".").
  { unfold net.parseIPv4.
    destruct (net.parseIPv4Fields whole) as [p|] eqn:Hp; [|now left].
    right. rewrite length_app, (parseIPv4Fields_length _ _ Hp). reflexivity. }
  destruct (Ascii.eqb c ":"); [apply parseIPv6_length|].
  destruct (Ascii.eqb c "%"); [now left|apply IH].
Qed.

(** [ParseIP] returns the nil address or 16 bytes. *)
Lemma ParseIP_length (s : string) :
  net.ParseIP s = [] \/ length (net.ParseIP s) = 16%nat.
Proof. apply ParseIP_scan_length. Qed.

Lemma contains_byte_app (c : ascii) (a b : string) :
  contains_byte c (a +:+ b) = contains_byte c a || contains_byte c b.
Proof.
  induction a as [|x a IH]; [reflexivity|].
  rewrite append_cons. cbn. rewrite IH. now rewrite orb_assoc.
Qed.

Lemma dotted_quad_has_dot (p : list Z) :
  contains_byte "." (net.dotted_quad p) = true.
Proof.
  unfold net.dotted_quad. rewrite !contains_byte_app.
  change (contains_byte "." ".") with true. cbn [orb].
  now rewrite orb_true_r.
Qed.

Lemma string6_has_colon (g : list Z) (run : nat * nat) :
  contains_byte ":" (net.string6 9 0 g run) = true.
Proof.
  cbn [net.string6]. change (8 <=? 0)%nat with false. cbv iota.
  destruct ((0 <? snd run)%nat && Nat.eqb 0 (fst run)).
  { now rewrite contains_byte_app. }
  change (0 <? 0)%nat with false. cbv iota. rewrite append_nil.
  change (8 <=? 1)%nat with false. cbv iota.
  rewrite contains_byte_app.
  destruct ((0 <? snd run)%nat && Nat.eqb 1 (fst run)).
  { rewrite contains_byte_app. change (contains_byte ":" "::") with true.
    cbn [orb]. apply orb_true_r. }
  change (0 <? 1)%nat with true. cbv iota.
  rewrite contains_byte_app. change (contains_byte ":" ":") with true.
  cbn [orb]. apply orb_true_r.
Qed.

(** Only the nil address reads ["<nil>"], among those [ParseIP] returns. *)
Lemma IP_String_nil_iff (ip : net.IP) :
  ip = [] \/ length ip = 16%nat ->
  net.IP_String ip = "<nil>" <-> ip = [].
Proof.
  intros [->|Hlen]; [now split|].
  split; [|intros ->; reflexivity].
  unfold net.IP_String. rewrite Hlen. unfold net.IPv4len, net.IPv6len.
  cbn [Nat.eqb negb andb].
  destruct (Nat.eqb (length (net.To4 ip)) 4); intros H.
  - pose proof (dotted_quad_has_dot (net.To4 ip)) as Hdot.
    rewrite H in Hdot. discriminate.
  - pose proof (string6_has_colon (net.groups ip)
                  (net.longest_zero_run (net.groups ip) 0 (0%nat, 0%nat))) as Hc.
    rewrite H in Hc. discriminate.
Qed.

Lemma GetIP_length (r : Request) :
  GetIP r = [] \/ length (GetIP r) = 16%nat.
Proof.
  unfold GetIP.
  destruct (negb _); [apply ParseIP_length|].
  destruct (negb _); [apply ParseIP_length|].
  destruct (net.SplitHostPort _) as [[host port]|why]; apply ParseIP_length.
Qed.

(** ** Splitting at a separator *)

Lemma Cut_spec (s : string) (sep : ascii) :
  match strings.Cut s sep with
  | Some (a, b) => s = a +:+ String sep b /\ contains_byte sep a = false
  | None => contains_byte sep s = false
  end.
Proof.
  induction s as [|c s IH]; cbn; [reflexivity|].
  destruct (Ascii.eqb_spec c sep) as [->|Hne].
  - split; reflexivity.
  - destruct (strings.Cut s sep) as [[a b]|].
    + destruct IH as [-> Ha]. cbn.
      destruct (Ascii.eqb_spec c sep); [contradiction|]. now split.
    + exact IH.
Qed.

Lemma SplitN_first (s : string) (sep : ascii) :
  nth 0 (strings.SplitN s sep 2) "" =
    match strings.Cut s sep with
    | Some (a, _) => a
    | None => s
    end.
Proof.
  unfold strings.SplitN.
  change (2 =? 0) with false. change (2 <? 0) with false.
  change (Z.to_nat (2 - 1)) with 1%nat. cbn [strings.genSplit].
  destruct (strings.Cut s sep) as [[a b]|]; reflexivity.
Qed.

Lemma SplitN_first_segment (s : string) (sep : ascii) :
  first_segment s sep (nth 0 (strings.SplitN s sep 2) "").
Proof.
  rewrite SplitN_first.
  pose proof (Cut_spec s sep) as H.
  destruct (strings.Cut s sep) as [[a b]|].
  - destruct H as [H Ha]. split; [exact Ha|]. right. now exists b.
  - split; [exact H|]. now left.
Qed.

(** ** The handler *)

Section Middleware.

Variable Client : Type.
Variable Store : Type.
Variable SlidingWindowAlgorithm : Z.
Variable Allow :
  Client -> string -> go_limiter.Limit -> Store ->
  (go_limiter.Result + error) * Store.

Local Abbreviation resolve := (NewWithConfig_config SlidingWindowAlgorithm).
Local Abbreviation handler := (NewWithConfig_handler Allow).
Local Abbreviation build := (NewWithConfig SlidingWindowAlgorithm Allow).

(** After [NewWithConfig]'s defaults no callback is nil. *)
Lemma callbacks_resolved (cfg : Config Client) :
  exists skipper key reject onError,
    callbacks (resolve cfg) skipper key reject onError.
Proof.
  unfold callbacks, NewWithConfig_config. cbn.
  destruct (Skipper cfg), (Key cfg), (Handler cfg), (ErrHandler cfg);
    do 4 eexists; repeat split.
Qed.

(** With a store handle, [NewWithConfig] returns the handler closed over the
    resolved configuration, the handle and the limit. *)
Lemma NewWithConfig_Done (cfg : Config Client) (rediser : Client) :
  Rediser cfg = Some rediser ->
  build cfg =
    Done (fun next w r =>
            handler (resolve cfg) rediser (NewWithConfig_limit (resolve cfg)) next w r).
Proof. intros H. unfold NewWithConfig. now rewrite H. Qed.

Lemma NewWithConfig_Done_inv (cfg : Config Client) (mw : Middleware Store) :
  build cfg = Done mw ->
  exists rediser,
    Rediser cfg = Some rediser /\
    mw = fun next w r =>
           handler (resolve cfg) rediser (NewWithConfig_limit (resolve cfg)) next w r.
Proof.
  unfold NewWithConfig. destruct (Rediser cfg) as [rd|]; [|discriminate].
  intros [= <-]. now exists rd.
Qed.

Ltac run_handler :=
  unfold NewWithConfig_handler, config_Skipper, config_Key, config_Handler,
    config_ErrHandler, limiter_Allow, time_Now, next_ServeHTTP, log, bind, ret,
    call;
  cbn [store clock calls].

(** The five ways through the handler, for any configuration whose
    callbacks are there. *)
Lemma handler_skipped (c : Config Client) limiter limit next w r s skipper :
  Skipper c = Some skipper -> skipper r = true ->
  handler c limiter limit next w r s =
    (next w r, mkWorld (store s) (clock s) (calls s ++ [CallNext r])).
Proof. intros Hs Hr. run_handler. now rewrite Hs, Hr. Qed.

Lemma handler_error_forwarded (c : Config Client) limiter limit next w r s
    skipper key err st' :
  Skipper c = Some skipper -> Key c = Some key -> skipper r = false ->
  Allow limiter (key r) limit (store s) = (inr err, st') ->
  SkipOnError c = true ->
  handler c limiter limit next w r s =
    (next w r,
     mkWorld st' (clock s) (calls s ++ [CallAllow (key r) limit; CallNext r])).
Proof.
  intros Hs Hk Hr Ha He. run_handler. rewrite Hs, Hr, Hk, Ha, He.
  cbn [store clock calls]. now rewrite <- app_assoc.
Qed.

Lemma handler_error_handled (c : Config Client) limiter limit next w r s
    skipper key onError err st' :
  Skipper c = Some skipper -> Key c = Some key ->
  ErrHandler c = Some onError -> skipper r = false ->
  Allow limiter (key r) limit (store s) = (inr err, st') ->
  SkipOnError c = false ->
  handler c limiter limit next w r s =
    (onError err w r,
     mkWorld st' (clock s)
       (calls s ++ [CallAllow (key r) limit; CallErrHandler err r])).
Proof.
  intros Hs Hk Hh Hr Ha He. run_handler. rewrite Hs, Hr, Hk, Ha, He, Hh.
  cbn [store clock calls]. now rewrite <- app_assoc.
Qed.

Lemma handler_rejected (c : Config Client) limiter limit next w r s
    skipper key reject result st' :
  Skipper c = Some skipper -> Key c = Some key ->
  Handler c = Some reject -> skipper r = false ->
  Allow limiter (key r) limit (store s) = (inl result, st') ->
  go_limiter.Allowed result = false ->
  handler c limiter limit next w r s =
    (reject
       (SetHeader w "Retry-After"
          (strconv.FormatInt
             (time.Unix (time.Add (clock s) (go_limiter.RetryAfter result)))))
       r,
     mkWorld st' (clock s)
       (calls s ++ [CallAllow (key r) limit; CallNow; CallHandler r])).
Proof.
  intros Hs Hk Hh Hr Ha Hd. run_handler. rewrite Hs, Hr, Hk, Ha, Hd, Hh.
  cbn [store clock calls negb]. now rewrite <- !app_assoc.
Qed.

Lemma handler_allowed (c : Config Client) limiter limit next w r s
    skipper key result st' :
  Skipper c = Some skipper -> Key c = Some key -> skipper r = false ->
  Allow limiter (key r) limit (store s) = (inl result, st') ->
  go_limiter.Allowed result = true ->
  handler c limiter limit next w r s =
    (next
       (SetHeader
          (SetHeader
             (SetHeader w "X-RateLimit-Limit" (strconv.Itoa (Max c)))
             "X-RateLimit-Remaining"
             (strconv.FormatInt (go_limiter.Remaining result)))
          "X-RateLimit-Reset"
          (strconv.FormatInt
             (time.Unix (time.Add (clock s) (go_limiter.ResetAfter result)))))
       r,
     mkWorld st' (clock s)
       (calls s ++ [CallAllow (key r) limit; CallNow; CallNext r])).
Proof.
  intros Hs Hk Hr Ha Hd. run_handler. rewrite Hs, Hr, Hk, Ha, Hd.
  cbn [store clock calls negb]. now rewrite <- !app_assoc.
Qed.

(** ** The outcomes of a request *)


(** C2. When the limiter allows the request, the middleware sets
    [X-RateLimit-Limit] to the configured maximum, [X-RateLimit-Remaining]
    to the decision's remaining count and [X-RateLimit-Reset] to the decimal
    Unix time of now plus the decision's reset-after duration, and then
    calls the inner handler on that writer with the request. *)
Theorem allowed_request_gets_ratelimit_headers
    (cfg : Config Client) (mw : Middleware Store) (rediser : Client)
    skipper key reject onError next w r (s : World Store) result st' :
  build cfg = Done mw ->
  Rediser cfg = Some rediser ->
  callbacks (resolve cfg) skipper key reject onError ->
  skipper r = false ->
  Allow rediser (key r) (NewWithConfig_limit (resolve cfg)) (store s)
    = (inl result, st') ->
  go_limiter.Allowed result = true ->
  let stamp := time.Unix (time.Add (clock s) (go_limiter.ResetAfter result)) in
  exists w3,
    mw next w r s =
      (next w3 r,
       mkWorld st' (clock s)
         (calls s ++ [CallAllow (key r) (NewWithConfig_limit (resolve cfg));
                      CallNow; CallNext r]))
    /\ Header_Get (HeaderMap w3) "X-RateLimit-Limit"
       = strconv.Itoa (Max (resolve cfg))
    /\ Max (resolve cfg) = (if Max cfg =? 0 then 10 else Max cfg)
    /\ Header_Get (HeaderMap w3) "X-RateLimit-Remaining"
       = strconv.FormatInt (go_limiter.Remaining result)
    /\ Header_Get (HeaderMap w3) "X-RateLimit-Reset" = strconv.FormatInt stamp
    /\ (time.valid (clock s) ->
        stamp = (time.UnixNano (clock s) + go_limiter.ResetAfter result) / 1000000000)
    /\ (forall k,
        CanonicalMIMEHeaderKey k <> "X-Ratelimit-Limit" ->
        CanonicalMIMEHeaderKey k <> "X-Ratelimit-Remaining" ->
        CanonicalMIMEHeaderKey k <> "X-Ratelimit-Reset" ->
        Header_Get (HeaderMap w3) k = Header_Get (HeaderMap w) k)
    /\ wroteHeader w3 = wroteHeader w /\ Code w3 = Code w /\ Body w3 = Body w.
Proof.
  intros Hb Hrd (Hs & Hk & Hh & He) Hr Ha Hd stamp.
  rewrite (NewWithConfig_Done cfg rediser Hrd) in Hb. injection Hb as <-.
  eexists. split.
  { apply handler_allowed with (skipper := skipper) (result := result);
      assumption. }
  rewrite !HeaderMap_SetHeader.
  split.
  { rewrite !Header_Get_Set_other by (vm_compute; discriminate).
    apply Header_Get_Set. }
  split; [reflexivity|].
  split.
  { rewrite Header_Get_Set_other by (vm_compute; discriminate).
    apply Header_Get_Set. }
  split; [apply Header_Get_Set|].
  split; [intros Hv; now apply Unix_Add|].
  split; [|repeat split].
  intros k H1 H2 H3.
  rewrite !Header_Get_Set_other; [reflexivity | | | ];
    intros E; rewrite <- E in *; vm_compute in H1, H2, H3; congruence.
Qed.

(** C3. When the limiter call fails: with skip-on-error the inner handler is
    called on the untouched writer; without it the error handler is called
    and the inner handler is not. The default error handler sends status 500
    and the error's text. *)
Theorem limiter_error_is_skipped_or_handled
    (cfg : Config Client) (mw : Middleware Store) (rediser : Client)
    skipper key reject onError next w r (s : World Store) err st' :
  build cfg = Done mw ->
  Rediser cfg = Some rediser ->
  callbacks (resolve cfg) skipper key reject onError ->
  skipper r = false ->
  Allow rediser (key r) (NewWithConfig_limit (resolve cfg)) (store s)
    = (inr err, st') ->
  (SkipOnError cfg = true ->
   mw next w r s =
     (next w r,
      mkWorld st' (clock s)
        (calls s ++ [CallAllow (key r) (NewWithConfig_limit (resolve cfg));
                     CallNext r])))
  /\ (SkipOnError cfg = false ->
      mw next w r s =
        (onError err w r,
         mkWorld st' (clock s)
           (calls s ++ [CallAllow (key r) (NewWithConfig_limit (resolve cfg));
                        CallErrHandler err r]))
      /\ (forall next', mw next' w r s = mw next w r s)
      /\ (ErrHandler cfg = None ->
          onError err w r
          = and_then (WriteHeader w 500) (fun w0 => Done (Write w0 err))
          /\ (wroteHeader w = false ->
              exists w',
                onError err w r = Done w'
                /\ Code w' = 500
                /\ Body w' = Body w +:+ err
                /\ SentHeader w' = HeaderMap w))).
Proof.
  intros Hb Hrd (Hs & Hk & Hh & He) Hr Ha.
  rewrite (NewWithConfig_Done cfg rediser Hrd) in Hb. injection Hb as <-.
  split.
  - intros Hskip.
    apply handler_error_forwarded with (skipper := skipper) (err := err); auto.
  - intros Hskip.
    assert (Hrun : forall nx,
      handler (resolve cfg) rediser (NewWithConfig_limit (resolve cfg)) nx w r s =
        (onError err w r,
         mkWorld st' (clock s)
           (calls s ++ [CallAllow (key r) (NewWithConfig_limit (resolve cfg));
                        CallErrHandler err r]))).
    { intros nx. apply handler_error_handled with (skipper := skipper); auto. }
    split; [apply Hrun|].
    split; [intros nx; now rewrite !Hrun|].
    intros Hnone.
    assert (Hon : onError =
      fun (e : error) w0 (_ : Request) =>
        and_then (WriteHeader w0 500) (fun w2 => Done (Write w2 e))).
    { unfold NewWithConfig_config in He. cbn [ErrHandler] in He.
      rewrite Hnone in He. now injection He as <-. }
    split; [now rewrite Hon|].
    intros Hw. rewrite Hon.
    destruct (Write_WriteHeader_fresh w 500 err Hw eq_refl)
      as (w' & Hrunw & Hc & Hbody & Hsent & _).
    exists w'. now rewrite Hc, Hbody, Hsent.
Qed.

(** C4. When the skip predicate holds for the request, the middleware calls
    the inner handler on the untouched writer and does nothing else: no
    header is set, the limiter is not called and the store is left as it
    was, whatever it holds. *)
Theorem skipped_request_is_forwarded_untouched
    (cfg : Config Client) (mw : Middleware Store)
    skipper key reject onError next w r (s : World Store) :
  build cfg = Done mw ->
  callbacks (resolve cfg) skipper key reject onError ->
  skipper r = true ->
  mw next w r s =
    (next w r, mkWorld (store s) (clock s) (calls s ++ [CallNext r]))
  /\ count_calls is_limiter_call [CallNext r] = 0%nat.
Proof.
  intros Hb (Hs & _) Hr.
  destruct (NewWithConfig_Done_inv cfg mw Hb) as (rd & _ & ->).
  split; [|reflexivity].
  now apply handler_skipped with (skipper := skipper).
Qed.

(** The key prefix has no part in what the handler does. *)
Lemma Prefix_is_ignored (cfg : Config Client) (prefix : string) :
  build (with_Prefix prefix cfg) = build cfg.
Proof. reflexivity. Qed.

(** What the handler does with a request, path by path: the outcome, the
    store and the calls, decided by the skip predicate and the limiter's
    answer. *)
Lemma handler_paths
    (c : Config Client) limiter limit next w r (s : World Store)
    skipper key reject onError :
  callbacks c skipper key reject onError ->
  let answer := Allow limiter (key r) limit (store s) in
  handler c limiter limit next w r s =
    if skipper r then
      (next w r, mkWorld (store s) (clock s) (calls s ++ [CallNext r]))
    else
      match fst answer with
      | inr err =>
          if SkipOnError c then
            (next w r,
             mkWorld (snd answer) (clock s)
               (calls s ++ [CallAllow (key r) limit; CallNext r]))
          else
            (onError err w r,
             mkWorld (snd answer) (clock s)
               (calls s ++ [CallAllow (key r) limit; CallErrHandler err r]))
      | inl result =>
          if go_limiter.Allowed result then
            (next
               (SetHeader
                  (SetHeader
                     (SetHeader w "X-RateLimit-Limit" (strconv.Itoa (Max c)))
                     "X-RateLimit-Remaining"
                     (strconv.FormatInt (go_limiter.Remaining result)))
                  "X-RateLimit-Reset"
                  (strconv.FormatInt
                     (time.Unix
                        (time.Add (clock s) (go_limiter.ResetAfter result)))))
               r,
             mkWorld (snd answer) (clock s)
               (calls s ++ [CallAllow (key r) limit; CallNow; CallNext r]))
          else
            (reject
               (SetHeader w "Retry-After"
                  (strconv.FormatInt
                     (time.Unix
                        (time.Add (clock s) (go_limiter.RetryAfter result)))))
               r,
             mkWorld (snd answer) (clock s)
               (calls s ++ [CallAllow (key r) limit; CallNow; CallHandler r]))
      end.
Proof.
  intros (Hs & Hk & Hh & He) answer. subst answer.
  destruct (skipper r) eqn:Hr.
  { now apply handler_skipped with (skipper := skipper). }
  destruct (Allow limiter (key r) limit (store s)) as [[result | err] st'] eqn:Ha;
    cbn [fst snd].
  - destruct (go_limiter.Allowed result) eqn:Hd.
    + apply handler_allowed with (skipper := skipper); assumption.
    + apply handler_rejected with (skipper := skipper); assumption.
  - destruct (SkipOnError c) eqn:Hskip.
    + apply handler_error_forwarded with (skipper := skipper) (err := err);
        assumption.
    + apply handler_error_handled with (skipper := skipper); assumption.
Qed.

(** A request that is not skipped makes the handler call the limiter first,
    with the key function's result, and end with the outcome of one
    callback: the inner handler, the reject handler or the error handler. *)
Lemma handler_calls_limiter_with_key
    (c : Config Client) limiter limit next w r (s : World Store)
    skipper key reject onError :
  callbacks c skipper key reject onError -> skipper r = false ->
  exists out evs,
    handler c limiter limit next w r s =
      (out,
       mkWorld (snd (Allow limiter (key r) limit (store s))) (clock s)
         (calls s ++ CallAllow (key r) limit :: evs))
    /\ ((exists w0, out = next w0 r)
        \/ (exists w0, out = reject w0 r)
        \/ (exists err, out = onError err w r)).
Proof.
  intros Hcb Hr. rewrite (handler_paths c limiter limit next w r s _ _ _ _ Hcb).
  cbv zeta. rewrite Hr.
  destruct (Allow limiter (key r) limit (store s)) as [[result | err] st'];
    cbn [fst snd].
  - destruct (go_limiter.Allowed result); do 2 eexists; (split; [reflexivity|]);
      eauto.
  - destruct (SkipOnError c); do 2 eexists; (split; [reflexivity|]); eauto.
Qed.

(** C8. Without a store handle [NewWithConfig] panics at once and returns no
    middleware; so does [New]. *)
Theorem missing_store_handle_panics (cfg : Config Client) :
  Rediser cfg = None ->
  build cfg = Panic "redis client is missing"
  /\ (forall mw, build cfg <> Done mw)
  /\ New SlidingWindowAlgorithm Allow None = Panic "redis client is missing".
Proof.
  intros H. unfold NewWithConfig. rewrite H.
  split; [reflexivity|]. split; [discriminate|reflexivity].
Qed.

(** C9. Every request takes exactly one of the four paths. For a
    middleware that was built, the callbacks are there, and what the handler
    does is fixed by the skip predicate and the limiter's answer: its outcome
    is that of the one callback that ends the request (the inner handler on
    the untouched writer when skipped or when a limiter error is skipped, the
    error handler on the untouched writer, the reject handler on the writer
    with [Retry-After], the inner handler on the writer with the three
    rate-limit headers), the store is the limiter's (untouched when skipped)
    and the calls are those of that path. Exactly one call ends the request,
    at most one is a call of the limiter, none when the request is skipped.
    When the callbacks return, so does the handler. *)
Theorem exactly_one_path_per_request
    (cfg : Config Client) (mw : Middleware Store) (rediser : Client)
    next w r (s : World Store) :
  build cfg = Done mw ->
  Rediser cfg = Some rediser ->
  exists skipper key reject onError,
    callbacks (resolve cfg) skipper key reject onError
    /\ let limit := NewWithConfig_limit (resolve cfg) in
       let answer := Allow rediser (key r) limit (store s) in
       exists out evs,
         mw next w r s =
           (out,
            mkWorld (if skipper r then store s else snd answer) (clock s)
              (calls s ++ evs))
         /\ (out, evs) =
            (if skipper r then (next w r, [CallNext r])
             else
               match fst answer with
               | inr err =>
                   if SkipOnError cfg then
                     (next w r, [CallAllow (key r) limit; CallNext r])
                   else
                     (onError err w r,
                      [CallAllow (key r) limit; CallErrHandler err r])
               | inl result =>
                   if go_limiter.Allowed result then
                     (next
                        (SetHeader
                           (SetHeader
                              (SetHeader w "X-RateLimit-Limit"
                                 (strconv.Itoa (Max (resolve cfg))))
                              "X-RateLimit-Remaining"
                              (strconv.FormatInt (go_limiter.Remaining result)))
                           "X-RateLimit-Reset"
                           (strconv.FormatInt
                              (time.Unix
                                 (time.Add (clock s)
                                    (go_limiter.ResetAfter result)))))
                        r,
                      [CallAllow (key r) limit; CallNow; CallNext r])
                   else
                     (reject
                        (SetHeader w "Retry-After"
                           (strconv.FormatInt
                              (time.Unix
                                 (time.Add (clock s)
                                    (go_limiter.RetryAfter result)))))
                        r,
                      [CallAllow (key r) limit; CallNow; CallHandler r])
               end)
         /\ path_of evs =
            Some (if skipper r then PathSkipped
                  else match fst answer with
                       | inr _ => PathErrored
                       | inl result =>
                           if go_limiter.Allowed result then PathAllowed
                           else PathRejected
                       end)
         /\ count_calls is_terminal_call evs = 1%nat
         /\ (count_calls is_limiter_call evs <= 1)%nat
         /\ count_calls is_limiter_call evs = (if skipper r then 0 else 1)%nat
         /\ ((forall w0 r0, exists w1, next w0 r0 = Done w1) ->
             (forall w0 r0, exists w1, reject w0 r0 = Done w1) ->
             (forall err w0 r0, exists w1, onError err w0 r0 = Done w1) ->
             exists w', out = Done w').
Proof.
  intros Hb Hrd.
  destruct (callbacks_resolved cfg) as (skipper & key & reject & onError & Hcb).
  exists skipper, key, reject, onError. split; [exact Hcb|].
  intros limit answer.
  rewrite (NewWithConfig_Done cfg rediser Hrd) in Hb. injection Hb as <-.
  subst answer limit.
  rewrite (handler_paths (resolve cfg) rediser (NewWithConfig_limit (resolve cfg))
             next w r s _ _ _ _ Hcb).
  cbv zeta. change (SkipOnError (resolve cfg)) with (SkipOnError cfg).
  destruct (skipper r).
  { do 2 eexists. split; [reflexivity|]. split; [reflexivity|].
    cbn. repeat split; auto. }
  destruct (Allow rediser (key r) (NewWithConfig_limit (resolve cfg)) (store s))
    as [[result | err] st']; cbn [fst snd].
  - destruct (go_limiter.Allowed result); do 2 eexists;
      (split; [reflexivity|]); (split; [reflexivity|]); cbn; repeat split; auto.
  - destruct (SkipOnError cfg); do 2 eexists;
      (split; [reflexivity|]); (split; [reflexivity|]); cbn; repeat split; auto.
Qed.

(** ** Construction *)

Lemma resolved_zero_valued_fields (cfg : Config Client) :
  zero_valued_fields (resolve cfg) =
    (if is_none (Rediser cfg) then ["Rediser"] else [])
    ++ (if (Algorithm cfg =? 0) && (SlidingWindowAlgorithm =? 0)
        then ["Algorithm"] else [])
    ++ (if SkipOnError cfg then [] else ["SkipOnError"]).
Proof.
  unfold zero_valued_fields, NewWithConfig_config, DefaultConfig.
  cbn [Skipper Rediser Max Burst StatusCode Message Algorithm Prefix
       SkipOnError Period Key Handler ErrHandler].
  assert (H1 : is_none (match Skipper cfg with
                        | Some f => Some f
                        | None => Some DefaultSkipper
                        end) = false)
    by (destruct (Skipper cfg); reflexivity).
  assert (H2 : forall (A : Type) (o : option A) (d : A),
            is_none (match o with Some f => Some f | None => Some d end) = false)
    by (intros A [x|] d; reflexivity).
  assert (H3 : forall x d : Z, d <> 0 -> ((if x =? 0 then d else x) =? 0) = false).
  { intros x d Hd. destruct (Z.eqb_spec x 0); apply Z.eqb_neq; assumption. }
  assert (H4 : forall x d : string, d <> "" ->
            String.eqb (if String.eqb x "" then d else x) "" = false).
  { intros x d Hd. destruct (String.eqb_spec x ""); apply String.eqb_neq; assumption. }
  rewrite H1, !H2, !H4 by discriminate.
  rewrite (H3 (Max cfg)), (H3 (Burst cfg)), (H3 (StatusCode cfg)),
    (H3 (Period cfg)) by (unfold time.Minute, time.Second, StatusTooManyRequests; lia).
  cbn [app]. rewrite app_nil_r.
  destruct (Z.eqb_spec (Algorithm cfg) 0) as [E|E]; cbn [andb].
  - reflexivity.
  - apply Z.eqb_neq in E. now rewrite E.
Qed.

(** C7 (as the code has it). [NewWithConfig] replaces every field left at
    its zero value by its default, the default handlers reading the resolved
    status code and message; the store handle and skip-on-error are kept.
    The resolved configuration the handler is closed over has no zero-valued
    field except skip-on-error when it is false, and the algorithm when it
    was left zero and the sliding-window constant is zero itself. *)
Theorem defaults_replace_zero_fields (cfg : Config Client) :
  let c := resolve cfg in
  Skipper c = match Skipper cfg with
              | None => Some DefaultSkipper
              | f => f
              end
  /\ Max c = (if Max cfg =? 0 then 10 else Max cfg)
  /\ Burst c = (if Burst cfg =? 0 then 10 else Burst cfg)
  /\ StatusCode c = (if StatusCode cfg =? 0 then 429 else StatusCode cfg)
  /\ Message c = (if String.eqb (Message cfg) ""
                  then "Too many requests, please try again later."
                  else Message cfg)
  /\ Algorithm c = (if Algorithm cfg =? 0 then SlidingWindowAlgorithm
                    else Algorithm cfg)
  /\ Prefix c = (if String.eqb (Prefix cfg) "" then "http_limiter" else Prefix cfg)
  /\ Period c = (if Period cfg =? 0 then 60000000000 else Period cfg)
  /\ Key c = match Key cfg with
             | None => Some (fun r => net.IP_String (GetIP r))
             | f => f
             end
  /\ Handler c = match Handler cfg with
                 | None =>
                     Some (fun w _ =>
                             and_then (WriteHeader w (StatusCode c))
                               (fun w => Done (Write w (Message c))))
                 | f => f
                 end
  /\ ErrHandler c = match ErrHandler cfg with
                    | None =>
                        Some (fun err w _ =>
                                and_then (WriteHeader w 500)
                                  (fun w => Done (Write w err)))
                    | f => f
                    end
  /\ Rediser c = Rediser cfg
  /\ SkipOnError c = SkipOnError cfg
  /\ (forall rediser, Rediser cfg = Some rediser ->
      build cfg =
        Done (fun next w r => handler c rediser (NewWithConfig_limit c) next w r)
      /\ zero_valued_fields c =
         (if (Algorithm cfg =? 0) && (SlidingWindowAlgorithm =? 0)
          then ["Algorithm"] else [])
         ++ (if SkipOnError cfg then [] else ["SkipOnError"])).
Proof.
  intros c. repeat (split; [reflexivity|]).
  intros rediser Hrd. split; [now apply NewWithConfig_Done|].
  unfold c. rewrite resolved_zero_valued_fields, Hrd. reflexivity.
Qed.

(** C10. With the default key function, a request for which [GetIP] finds
    no valid address gets the key ["<nil>"], and only such a request does:
    the handler's first call is the limiter's with that key, the same for
    every such request, and it ends with the outcome of one callback. An X-Forwarded-For that does not parse
    is such a case, whatever the other sources hold, and so is a remote
    address that does not parse. *)
Theorem invalid_address_key_is_nil_literal
    (cfg : Config Client) (mw : Middleware Store)
    skipper key reject onError next w r (s : World Store) :
  build cfg = Done mw ->
  Key cfg = None ->
  callbacks (resolve cfg) skipper key reject onError ->
  GetIP r = [] ->
  key r = "<nil>"
  /\ (forall r', GetIP r' = [] -> key r' = key r)
  /\ (forall r', key r' = "<nil>" <-> GetIP r' = [])
  /\ (skipper r = false ->
      exists out st' evs,
        mw next w r s =
          (out,
           mkWorld st' (clock s)
             (calls s
              ++ CallAllow "<nil>" (NewWithConfig_limit (resolve cfg)) :: evs))
        /\ ((exists w0, out = next w0 r)
            \/ (exists w0, out = reject w0 r)
            \/ (exists err, out = onError err w r)))
  /\ GetIP (request [("X-Forwarded-For", "unknown"); ("X-Real-IP", "198.51.100.7")]
              "192.0.2.1:54321") = []
  /\ GetIP (request [] "@") = [].
Proof.
  intros Hb Hnone Hcb Hnil.
  assert (Hkey : key = fun r0 => net.IP_String (GetIP r0)).
  { destruct Hcb as (_ & Hk & _). unfold NewWithConfig_config in Hk.
    cbn [Key] in Hk. rewrite Hnone in Hk. cbn in Hk. now injection Hk as <-. }
  assert (Hr : key r = "<nil>") by (rewrite Hkey, Hnil; reflexivity).
  split; [exact Hr|].
  split; [intros r' Hnil'; rewrite Hr, Hkey, Hnil'; reflexivity|].
  split; [intros r'; rewrite Hkey; apply IP_String_nil_iff, GetIP_length|].
  split; [|split; vm_compute; reflexivity].
  intros Hskip.
  destruct (NewWithConfig_Done_inv cfg mw Hb) as (rd & _ & ->).
  rewrite <- Hr.
  destruct (handler_calls_limiter_with_key (resolve cfg) rd
              (NewWithConfig_limit (resolve cfg)) next w r s _ _ _ _ Hcb Hskip)
    as (out & evs & Hrun & Hout).
  exists out. eexists. exists evs. split; [exact Hrun|exact Hout].
Qed.

End Middleware.

(** ** The key derivation and the prefix *)

(** C5 (what the code does). The key handed to the limiter is the key
    function's result alone. A configuration with the prefix ["tenant-a"]
    and one with the default prefix ["http_limiter"] both call the limiter
    with the key ["192.0.2.1"] for a request from 192.0.2.1, and count it
    under that key in the store. *)
Theorem limiter_key_lacks_prefix :
  let r := request [] "192.0.2.1:54321" in
  let limit := go_limiter.mkLimit 10000000000 0 3 3 in
  exists mw mw',
    NewWithConfig 0 counter_Allow tenant_config = Done mw
    /\ NewWithConfig 0 counter_Allow example_config = Done mw'
    /\ Prefix (NewWithConfig_config 0 tenant_config) = "tenant-a"
    /\ Prefix (NewWithConfig_config 0 example_config) = "http_limiter"
    /\ calls (snd (mw hello NewRecorder r (example_world (Some ∅))))
       = [CallAllow "192.0.2.1" limit; CallNow; CallNext r]
    /\ calls (snd (mw' hello NewRecorder r (example_world (Some ∅))))
       = [CallAllow "192.0.2.1" limit; CallNow; CallNext r]
    /\ store (snd (mw hello NewRecorder r (example_world (Some ∅))))
       = Some {[ "192.0.2.1" := 1 ]}.
Proof.
  intros r limit. do 2 eexists.
  split; [reflexivity|]. split; [reflexivity|].
  repeat split; vm_compute; reflexivity.
Qed.

(** C6 (as the code has it). [GetIP] takes the first source that is there:
    the trimmed part of a non-empty X-Forwarded-For before its first comma;
    else a trimmed X-Real-IP that is not empty; else the trimmed remote
    address, without its port when it reads [host:port] or [[host]:port] and
    whole when it does not split. The chosen text is parsed as an IP
    address. *)
Theorem GetIP_first_source_wins (r : Request) :
  let xff := Header_Get (ReqHeader r) "X-Forwarded-For" in
  let xri := strings.TrimSpace (Header_Get (ReqHeader r) "X-Real-IP") in
  let remote := strings.TrimSpace (RemoteAddr r) in
  (xff <> "" ->
   exists seg,
     first_segment xff "," seg
     /\ GetIP r = net.ParseIP (strings.TrimSpace seg))
  /\ (xff = "" -> xri <> "" -> GetIP r = net.ParseIP xri)
  /\ (xff = "" -> xri = "" ->
      (forall host port,
         net.SplitHostPort remote = inl (host, port) ->
         (remote = host +:+ String ":" port
          \/ remote = String "[" (host +:+ String "]" (String ":" port)))
         /\ GetIP r = net.ParseIP host)
      /\ (forall why,
            net.SplitHostPort remote = inr why -> GetIP r = net.ParseIP remote))
  /\ net.IP_String
       (GetIP (request [("X-Forwarded-For", "203.0.113.5, 10.0.0.1")]
                 "192.0.2.1:54321")) = "203.0.113.5"
  /\ net.IP_String
       (GetIP (request [("X-Real-IP", "198.51.100.7")] "192.0.2.1:54321"))
     = "198.51.100.7"
  /\ net.IP_String (GetIP (request [] "192.0.2.1:54321")) = "192.0.2.1".
Proof.
  intros xff xri remote. unfold GetIP. fold xff. fold xri. fold remote.
  split.
  { intros Hx. exists (nth 0 (strings.SplitN xff "," 2) "").
    split; [apply SplitN_first_segment|].
    destruct (String.eqb_spec xff ""); [contradiction|reflexivity]. }
  split.
  { intros -> Hr. cbn [String.eqb negb].
    destruct (String.eqb_spec xri ""); [contradiction|reflexivity]. }
  split.
  { intros -> ->. cbn [String.eqb negb]. split.
    - intros host port Hsplit. split; [now apply SplitHostPort_spec|].
      now rewrite Hsplit.
    - intros why Hsplit. now rewrite Hsplit. }
  repeat split; vm_compute; reflexivity.
Qed.


(** C6, the difference. The remote address is trimmed before anything else
    is done with it: for the remote address [" 192.0.2.1"] the code finds
    192.0.2.1, the derivation that takes the remote address as it is finds
    no address. *)
Lemma GetIP_trims_remote_address :
  let r := request [] " 192.0.2.1" in
  net.IP_String (GetIP r) = "192.0.2.1"
  /\ net.IP_String (GetIP_as_specified r) = "<nil>"
  /\ GetIP r <> GetIP_as_specified r.
Proof.
  intros r. split; [vm_compute; reflexivity|].
  split; [vm_compute; reflexivity|].
  vm_compute. discriminate.
Qed.

(** C7, the difference. The configuration resolved from one that names the
    store handle only still has zero-valued fields: skip-on-error, and the
    algorithm too when the sliding-window constant is 0. *)
Lemma resolved_config_keeps_zero_fields :
  zero_valued_fields (NewWithConfig_config 0 bare_config)
    = ["Algorithm"; "SkipOnError"]
  /\ zero_valued_fields (NewWithConfig_config 1 bare_config) = ["SkipOnError"]
  /\ (forall swa : Z, zero_valued_fields (NewWithConfig_config swa bare_config) <> [])
  /\ (exists mw, NewWithConfig 0 counter_Allow bare_config = Done mw).
Proof.
  split; [reflexivity|]. split; [reflexivity|].
  split; [|eexists; reflexivity].
  intros swa. rewrite resolved_zero_valued_fields. cbn.
  destruct (swa =? 0); discriminate.
Qed.

(** ** The middleware at work

    The repository's example limits (3 requests per 10 seconds) on the
    counting limiter, for a request from 192.0.2.1 at [example_clock]. *)


Lemma allowed_request_example :
  let r := request [] "192.0.2.1:54321" in
  let s := example_world (Some ∅) in
  exists mw w3,
    NewWithConfig 0 counter_Allow example_config = Done mw
    /\ fst (mw hello NewRecorder r s) = hello w3 r
    /\ Header_Get (HeaderMap w3) "X-RateLimit-Limit" = "3"
    /\ Header_Get (HeaderMap w3) "X-RateLimit-Remaining" = "2"
    /\ Header_Get (HeaderMap w3) "X-RateLimit-Reset" = "1585918932".
Proof.
  intros r s.
  destruct
    (allowed_request_gets_ratelimit_headers unit (option (gmap string Z)) 0
       counter_Allow example_config _ tt DefaultSkipper
       (fun r0 => net.IP_String (GetIP r0)) _ _ hello NewRecorder r s
       (go_limiter.mkResult true 2 (-1) 10000000000)
       (Some {[ "192.0.2.1" := 1 ]})
       eq_refl eq_refl (conj eq_refl (conj eq_refl (conj eq_refl eq_refl)))
       eq_refl eq_refl eq_refl)
    as (w3 & Hrun & Hlimit & _ & Hremaining & Hreset & _).
  eexists. exists w3. split; [reflexivity|].
  split; [rewrite Hrun; reflexivity|].
  split; [rewrite Hlimit; reflexivity|].
  split; [rewrite Hremaining; reflexivity|].
  rewrite Hreset. vm_compute. reflexivity.
Defined.

Lemma limiter_error_example :
  let r := request [] "192.0.2.1:54321" in
  let s := example_world None in
  (exists mw w',
     NewWithConfig 0 counter_Allow example_config = Done mw
     /\ fst (mw hello NewRecorder r s) = Done w'
     /\ Code w' = 500
     /\ Body w' = "dial tcp 127.0.0.1:6379: connect: connection refused")
  /\ (exists mw,
        NewWithConfig 0 counter_Allow lenient_config = Done mw
        /\ fst (mw hello NewRecorder r s) = hello NewRecorder r).
Proof.
  intros r s. split.
  - destruct
      (limiter_error_is_skipped_or_handled unit (option (gmap string Z)) 0
         counter_Allow example_config _ tt DefaultSkipper
         (fun r0 => net.IP_String (GetIP r0)) _ _ hello NewRecorder r s
         "dial tcp 127.0.0.1:6379: connect: connection refused" None
         eq_refl eq_refl (conj eq_refl (conj eq_refl (conj eq_refl eq_refl)))
         eq_refl eq_refl)
      as (_ & Hhandled).
    destruct (Hhandled eq_refl) as (Hrun & _ & Hdefault).
    destruct (Hdefault eq_refl) as (_ & Hfresh).
    destruct (Hfresh eq_refl) as (w' & Hon & Hcode & Hbody & _).
    eexists. exists w'. split; [reflexivity|].
    split; [rewrite Hrun; exact Hon|].
    split; [rewrite Hcode; reflexivity|].
    rewrite Hbody. reflexivity.
  - destruct
      (limiter_error_is_skipped_or_handled unit (option (gmap string Z)) 0
         counter_Allow lenient_config _ tt DefaultSkipper
         (fun r0 => net.IP_String (GetIP r0)) _ _ hello NewRecorder r s
         "dial tcp 127.0.0.1:6379: connect: connection refused" None
         eq_refl eq_refl (conj eq_refl (conj eq_refl (conj eq_refl eq_refl)))
         eq_refl eq_refl)
      as (Hforward & _).
    eexists. split; [reflexivity|].
    exact (f_equal fst (Hforward eq_refl)).
Defined.

Lemma skipped_request_example :
  let r := request [] "192.0.2.1:54321" in
  let s := example_world None in
  exists mw,
    NewWithConfig 0 counter_Allow skip_get_config = Done mw
    /\ mw hello NewRecorder r s
       = (hello NewRecorder r, mkWorld None example_clock [CallNext r]).
Proof.
  intros r s.
  destruct
    (skipped_request_is_forwarded_untouched unit (option (gmap string Z)) 0
       counter_Allow skip_get_config _
       (fun r0 => String.eqb (Method r0) "GET")
       (fun r0 => net.IP_String (GetIP r0)) _ _ hello NewRecorder r s
       eq_refl (conj eq_refl (conj eq_refl (conj eq_refl eq_refl))) eq_refl)
    as (Hrun & _).
  eexists. split; [reflexivity|]. exact Hrun.
Defined.

Lemma missing_store_handle_example :
  Rediser (DefaultConfig (Client := unit) 0) = None
  /\ NewWithConfig 0 counter_Allow (DefaultConfig 0)
     = Panic "redis client is missing".
Proof.
  split; [reflexivity|].
  exact (proj1 (missing_store_handle_panics unit (option (gmap string Z)) 0
                  counter_Allow (DefaultConfig 0) eq_refl)).
Defined.

Lemma exactly_one_path_example :
  let r := request [] "192.0.2.1:54321" in
  let s := example_world (Some {[ "192.0.2.1" := 3 ]}) in
  exists mw out st' evs,
    NewWithConfig 0 counter_Allow example_config = Done mw
    /\ mw hello NewRecorder r s = (out, mkWorld st' example_clock evs)
    /\ path_of evs = Some PathRejected
    /\ count_calls is_terminal_call evs = 1%nat
    /\ (count_calls is_limiter_call evs <= 1)%nat.
Proof.
  intros r s.
  destruct
    (exactly_one_path_per_request unit (option (gmap string Z)) 0
       counter_Allow example_config _ tt hello NewRecorder r s
       eq_refl eq_refl)
    as (skipper & key & reject & onError & Hcb & out & evs & Hrun & _ & Hpath
        & Hone & Hle & _).
  destruct Hcb as (Hs & Hk & _).
  injection Hs as <-. injection Hk as <-.
  eexists. exists out. eexists. exists evs. split; [reflexivity|].
  split; [exact Hrun|]. split; [exact Hpath|]. split; [exact Hone|exact Hle].
Defined.

Lemma GetIP_first_source_example :
  let r :=
    request [("X-Forwarded-For", "203.0.113.5, 10.0.0.1");
             ("X-Real-IP", "198.51.100.7")] "192.0.2.1:54321" in
  Header_Get (ReqHeader r) "X-Forwarded-For" <> ""
  /\ exists seg,
       first_segment "203.0.113.5, 10.0.0.1" "," seg
       /\ GetIP r = net.ParseIP (strings.TrimSpace seg).
Proof.
  intros r.
  assert (Hx : Header_Get (ReqHeader r) "X-Forwarded-For" <> "")
    by (vm_compute; discriminate).
  split; [exact Hx|].
  exact (proj1 (GetIP_first_source_wins r) Hx).
Defined.

Lemma defaults_replace_zero_fields_example :
  Max (NewWithConfig_config 0 bare_config) = 10
  /\ Period (NewWithConfig_config 0 bare_config) = 60000000000
  /\ zero_valued_fields (NewWithConfig_config 0 bare_config)
     = ["Algorithm"; "SkipOnError"].
Proof.
  pose proof (defaults_replace_zero_fields unit (option (gmap string Z)) 0
                counter_Allow bare_config) as H.
  cbv zeta in H.
  destruct H as (_ & Hmax & _ & _ & _ & _ & _ & Hperiod & _ & _ & _ & _ & _ & Hbuilt).
  destruct (Hbuilt tt eq_refl) as (_ & Hzero).
  split; [exact Hmax|]. split; [exact Hperiod|exact Hzero].
Defined.

Lemma invalid_address_key_example :
  let r :=
    request [("X-Forwarded-For", "unknown"); ("X-Real-IP", "198.51.100.7")]
      "192.0.2.1:54321" in
  let s := example_world (Some ∅) in
  GetIP r = []
  /\ exists mw out st' evs,
       NewWithConfig 0 counter_Allow example_config = Done mw
       /\ mw hello NewRecorder r s
          = (out,
             mkWorld st' example_clock
               (CallAllow "<nil>" (go_limiter.mkLimit 10000000000 0 3 3) :: evs)).
Proof.
  intros r s. split; [vm_compute; reflexivity|].
  destruct
    (invalid_address_key_is_nil_literal unit (option (gmap string Z)) 0
       counter_Allow example_config _ DefaultSkipper
       (fun r0 => net.IP_String (GetIP r0)) _ _ hello NewRecorder r s
       eq_refl eq_refl (conj eq_refl (conj eq_refl (conj eq_refl eq_refl)))
       ltac:(vm_compute; reflexivity))
    as (_ & _ & _ & Hrun & _).
  destruct (Hrun eq_refl) as (out & st' & evs & H & _).
  eexists. exists out, st', evs. split; [reflexivity|exact H].
Defined.

(** * Further properties *)

(** ** Decimal digits *)

Lemma digit_cases (c : ascii) :
  net.is_digit c = true ->
  c = "0"%char \/ c = "1"%char \/ c = "2"%char \/ c = "3"%char \/ c = "4"%char
  \/ c = "5"%char \/ c = "6"%char \/ c = "7"%char \/ c = "8"%char \/ c = "9"%char.
Proof.
  destruct c as [[] [] [] [] [] [] [] []]; vm_compute; intros H;
    try discriminate H; auto 10.
Qed.

Lemma string_of_uint_digits (u : Decimal.uint) :
  all_bytes net.is_digit (NilEmpty.string_of_uint u) = true.
Proof. induction u; cbn; auto. Qed.

(** The decimal text of a number that is not negative: digits, at least
    one. *)
Lemma FormatInt_digits (n : Z) :
  0 <= n ->
  all_bytes net.is_digit (strconv.FormatInt n) = true
  /\ starts_with_digit (strconv.FormatInt n) = true.
Proof.
  intros Hn. unfold strconv.FormatInt.
  destruct n as [|p|p]; [split; reflexivity| |lia].
  cbn [Z.to_int NilZero.string_of_int].
  pose proof (DecimalPos.Unsigned.to_uint_nonnil p) as Hnil.
  pose proof (string_of_uint_digits (Pos.to_uint p)) as Hd.
  unfold NilZero.string_of_uint.
  destruct (Pos.to_uint p); try contradiction; split; try exact Hd; reflexivity.
Qed.

Lemma all_bytes_app (p : ascii -> bool) (a b : string) :
  all_bytes p (a +:+ b) = all_bytes p a && all_bytes p b.
Proof.
  induction a as [|c a IH]; [reflexivity|].
  rewrite append_cons. cbn. rewrite IH. now rewrite andb_assoc.
Qed.

Lemma contains_byte_digits (c : ascii) (s : string) :
  all_bytes net.is_digit s = true -> net.is_digit c = false ->
  contains_byte c s = false.
Proof.
  intros Hs Hc. induction s as [|x s IH]; [reflexivity|].
  cbn in Hs |- *. apply andb_true_iff in Hs as [Hx Hs].
  destruct (Ascii.eqb_spec x c) as [->|_]; [congruence|]. now apply IH.
Qed.

Lemma byte_cases (P : Z -> Prop) :
  (forall n : nat, (n < 256)%nat -> P (Z.of_nat n)) ->
  forall b, is_byte b -> P b.
Proof.
  intros H b [H0 H1]. rewrite <- (Z2Nat.id b) by lia. apply H. lia.
Qed.

Ltac each_byte n :=
  do 256 (destruct n as [|n]; [intros; vm_compute; reflexivity|]); intros; lia.

(** A byte's decimal text reads back as the byte, up to the dot or the end
    that follows it. *)
Lemma octet_FormatInt_dot (b : Z) :
  is_byte b ->
  forall rest,
    net.octet (strconv.FormatInt b +:+ String "." rest) 0 0
    = Some (b, String "." rest).
Proof.
  intros Hb rest. pattern b. apply byte_cases; [|exact Hb].
  clear. intros n. each_byte n.
Qed.

Lemma octet_FormatInt_end (b : Z) :
  is_byte b -> net.octet (strconv.FormatInt b) 0 0 = Some (b, "").
Proof.
  intros Hb. pattern b. apply byte_cases; [|exact Hb].
  clear. intros n. each_byte n.
Qed.

Lemma FormatInt_byte_length (b : Z) :
  is_byte b -> (String.length (strconv.FormatInt b) <=? 3)%nat = true.
Proof.
  intros Hb. pattern b. apply byte_cases; [|exact Hb].
  clear. intros n. each_byte n.
Qed.

(** ** Trimming *)

Lemma string_rev_app (a b : string) :
  string_rev (a +:+ b) = string_rev b +:+ string_rev a.
Proof.
  induction a as [|c a IH].
  - rewrite append_nil. cbn. induction (string_rev b) as [|x t IHt];
      [reflexivity|]. rewrite append_cons. now rewrite <- IHt.
  - rewrite append_cons. cbn. rewrite IH.
    generalize (string_rev b) (string_rev a) (String c ""). clear.
    intros x y z. induction x as [|c x IH]; [reflexivity|].
    rewrite !append_cons. now rewrite IH.
Qed.

Lemma string_rev_involutive (s : string) : string_rev (string_rev s) = s.
Proof.
  induction s as [|c s IH]; [reflexivity|].
  cbn. rewrite string_rev_app, IH. reflexivity.
Qed.

Lemma strip_one_digit (c : ascii) (t : string) :
  net.is_digit c = true ->
  strings.strip_one strings.space_runes (String c t) = None
  /\ strings.strip_one (map string_rev strings.space_runes) (String c t) = None.
Proof.
  intros H.
  destruct (digit_cases c H) as [->|[->|[->|[->|[->|[->|[->|[->|[->| ->]]]]]]]]];
    split; reflexivity.
Qed.

Lemma trim_left_fixed (fuel : nat) (runes : list string) (s : string) :
  strings.strip_one runes s = None -> strings.trim_left fuel runes s = s.
Proof. intros H. destruct fuel; cbn; [reflexivity|now rewrite H]. Qed.

(** A text that begins and ends with a digit is left as it is. *)
Lemma TrimSpace_between_digits (s : string) :
  starts_with_digit s = true -> starts_with_digit (string_rev s) = true ->
  strings.TrimSpace s = s.
Proof.
  intros Hl Hr. unfold strings.TrimSpace.
  assert (Hleft : strings.TrimLeftSpace s = s).
  { unfold strings.TrimLeftSpace. apply trim_left_fixed.
    destruct s as [|c t]; [discriminate|].
    exact (proj1 (strip_one_digit c t Hl)). }
  rewrite Hleft. unfold strings.TrimRightSpace.
  rewrite trim_left_fixed; [apply string_rev_involutive|].
  destruct (string_rev s) as [|c t]; [discriminate|].
  exact (proj2 (strip_one_digit c t Hr)).
Qed.

Lemma all_bytes_rev (p : ascii -> bool) (s : string) :
  all_bytes p (string_rev s) = all_bytes p s.
Proof.
  induction s as [|c s IH]; [reflexivity|].
  cbn. rewrite all_bytes_app, IH. cbn. now rewrite andb_true_r, andb_comm.
Qed.

Lemma digits_start_with_digit (s : string) :
  all_bytes net.is_digit s = true -> s <> "" -> starts_with_digit s = true.
Proof.
  destruct s as [|c t]; [contradiction|]. cbn.
  intros H _. now apply andb_true_iff in H as [H _].
Qed.

Lemma starts_with_digit_app (a b : string) :
  starts_with_digit a = true -> starts_with_digit (a +:+ b) = true.
Proof. destruct a; [discriminate|]. now rewrite append_cons. Qed.

Lemma string_rev_nonempty (s : string) : s <> "" -> string_rev s <> "".
Proof.
  destruct s as [|c t]; [contradiction|]. intros _. cbn.
  destruct (string_rev t); discriminate.
Qed.

(** A text that ends with a non-empty run of digits ends with a digit. *)
Lemma ends_with_digits (a b : string) :
  all_bytes net.is_digit b = true -> b <> "" ->
  starts_with_digit (string_rev (a +:+ b)) = true.
Proof.
  intros Hb Hne. rewrite string_rev_app. apply starts_with_digit_app.
  apply digits_start_with_digit.
  - now rewrite all_bytes_rev.
  - now apply string_rev_nonempty.
Qed.

(** ** Dotted quads *)

Lemma dotted_quad_unfold (a b c d : Z) :
  net.dotted_quad [a; b; c; d] =
    strconv.FormatInt a +:+ String "."
      (strconv.FormatInt b +:+ String "."
         (strconv.FormatInt c +:+ String "." (strconv.FormatInt d))).
Proof. reflexivity. Qed.

Lemma FormatInt_nonempty (n : Z) : 0 <= n -> strconv.FormatInt n <> "".
Proof.
  intros Hn E. destruct (FormatInt_digits n Hn) as [_ H].
  rewrite E in H. discriminate.
Qed.

(** The text of a dotted quad: it begins and ends with a digit and holds
    digits and dots only. *)
Lemma dotted_quad_shape (a b c d : Z) :
  is_byte a -> is_byte b -> is_byte c -> is_byte d ->
  starts_with_digit (net.dotted_quad [a; b; c; d]) = true
  /\ (forall x, net.is_digit x = false -> x <> "."%char ->
      contains_byte x (net.dotted_quad [a; b; c; d]) = false).
Proof.
  intros [Ha _] [Hb _] [Hc _] [Hd _]. rewrite dotted_quad_unfold. split.
  - apply starts_with_digit_app. now apply FormatInt_digits.
  - intros x Hx Hdot.
    assert (Hne : Ascii.eqb "." x = false) by (apply Ascii.eqb_neq; congruence).
    rewrite contains_byte_app. cbn [contains_byte]. rewrite Hne.
    rewrite contains_byte_app. cbn [contains_byte]. rewrite Hne.
    rewrite contains_byte_app. cbn [contains_byte]. rewrite Hne.
    rewrite !contains_byte_digits by (try apply FormatInt_digits; assumption).
    reflexivity.
Qed.

Lemma parseIPv4Fields_dotted_quad (a b c d : Z) :
  is_byte a -> is_byte b -> is_byte c -> is_byte d ->
  net.parseIPv4Fields (net.dotted_quad [a; b; c; d]) = Some [a; b; c; d].
Proof.
  intros Ha Hb Hc Hd. rewrite dotted_quad_unfold. unfold net.parseIPv4Fields.
  rewrite octet_FormatInt_dot by assumption. cbn [net.dotted].
  rewrite octet_FormatInt_dot by assumption. cbn [net.dotted].
  rewrite octet_FormatInt_dot by assumption. cbn [net.dotted].
  rewrite octet_FormatInt_end by assumption. reflexivity.
Qed.

(** Digits and then a dot: the text is read as an IPv4 address. *)
Lemma ParseIP_scan_digits (pre rest whole : string) :
  all_bytes net.is_digit pre = true ->
  net.ParseIP_scan (pre +:+ String "." rest) whole = net.parseIPv4 whole.
Proof.
  induction pre as [|c pre IH]; intros H.
  - reflexivity.
  - rewrite append_cons. cbn in H. apply andb_true_iff in H as [Hc H].
    cbn [net.ParseIP_scan].
    destruct (digit_cases c Hc) as [->|[->|[->|[->|[->|[->|[->|[->|[->| ->]]]]]]]]];
      cbn; now apply IH.
Qed.

(** Reading the text of a dotted quad gives its four bytes after the
    IPv4-in-IPv6 prefix, and that address reads as the same text. *)
Lemma ParseIP_dotted_quad (a b c d : Z) :
  is_byte a -> is_byte b -> is_byte c -> is_byte d ->
  net.ParseIP (net.dotted_quad [a; b; c; d]) = net.v4InV6Prefix ++ [a; b; c; d].
Proof.
  intros Ha Hb Hc Hd. unfold net.ParseIP.
  rewrite dotted_quad_unfold at 1.
  rewrite ParseIP_scan_digits by (apply FormatInt_digits, Ha).
  unfold net.parseIPv4. now rewrite parseIPv4Fields_dotted_quad.
Qed.

Lemma IP_String_v4 (a b c d : Z) :
  net.IP_String (net.v4InV6Prefix ++ [a; b; c; d]) = net.dotted_quad [a; b; c; d].
Proof. reflexivity. Qed.

(** ** Cutting where the separator is known *)

Lemma Cut_at (seg t : string) (sep : ascii) :
  contains_byte sep seg = false ->
  strings.Cut (seg +:+ String sep t) sep = Some (seg, t).
Proof.
  induction seg as [|c seg IH]; intros H.
  - rewrite append_nil. cbn. now rewrite Ascii.eqb_refl.
  - rewrite append_cons. cbn in H |- *.
    destruct (Ascii.eqb c sep); [discriminate|]. now rewrite IH.
Qed.

Lemma Cut_none (s : string) (sep : ascii) :
  contains_byte sep s = false -> strings.Cut s sep = None.
Proof.
  induction s as [|c s IH]; intros H; [reflexivity|].
  cbn in H |- *. destruct (Ascii.eqb c sep); [discriminate|]. now rewrite IH.
Qed.

Lemma IndexByte_from_none (s : string) (c : ascii) (i : Z) :
  contains_byte c s = false -> net.IndexByte_from s c i = -1.
Proof.
  revert i. induction s as [|x s IH]; intros i H; [reflexivity|].
  cbn in H |- *. destruct (Ascii.eqb x c); [discriminate|]. now apply IH.
Qed.

Lemma last_from_none (s : string) (c : ascii) (i found : Z) :
  contains_byte c s = false -> net.last_from s c i found = found.
Proof.
  revert i found. induction s as [|x s IH]; intros i found H; [reflexivity|].
  cbn in H |- *. destruct (Ascii.eqb x c); [discriminate|]. now apply IH.
Qed.

Lemma last_from_at (host port : string) (c : ascii) (i found : Z) :
  contains_byte c host = false -> contains_byte c port = false ->
  net.last_from (host +:+ String c port) c i found = i + net.len host.
Proof.
  revert i found. induction host as [|x host IH]; intros i found Hh Hp.
  - rewrite append_nil. cbn. rewrite Ascii.eqb_refl.
    rewrite last_from_none by exact Hp. unfold net.len. cbn. lia.
  - rewrite append_cons. cbn in Hh |- *.
    destruct (Ascii.eqb x c); [discriminate|].
    rewrite IH by assumption. unfold net.len. cbn [String.length]. lia.
Qed.

Lemma slice_all (s : string) : net.slice s 0 (net.len s) = s.
Proof.
  unfold net.slice, net.len. rewrite Z.sub_0_r, Nat2Z.id. apply substring_whole.
Qed.

Lemma starts_with_contains (c : ascii) (s : string) :
  contains_byte c s = false -> net.starts_with c s = false.
Proof.
  destruct s as [|x s]; [reflexivity|]. cbn.
  destruct (Ascii.eqb x c); [discriminate|reflexivity].
Qed.

(** [SplitHostPort] takes [host:port] apart when neither part holds a colon
    or a bracket. *)
Lemma SplitHostPort_host_port (host port : string) :
  (forall c, In c [":"; "["; "]"]%char ->
             contains_byte c host = false /\ contains_byte c port = false) ->
  net.SplitHostPort (host +:+ String ":" port) = inl (host, port).
Proof.
  intros H.
  destruct (H ":"%char ltac:(cbn; auto)) as [Hc1 Hc2].
  destruct (H "["%char ltac:(cbn; auto)) as [Hl1 Hl2].
  destruct (H "]"%char ltac:(cbn; auto)) as [Hr1 Hr2].
  assert (Hl : contains_byte "[" (host +:+ String ":" port) = false)
    by (rewrite contains_byte_app; cbn; now rewrite Hl1, Hl2).
  assert (Hr : contains_byte "]" (host +:+ String ":" port) = false)
    by (rewrite contains_byte_app; cbn; now rewrite Hr1, Hr2).
  unfold net.SplitHostPort, net.last.
  rewrite last_from_at by assumption. rewrite Z.add_0_l.
  pose proof (len_nonneg host) as Hn.
  destruct (Z.ltb_spec (net.len host) 0); [lia|].
  rewrite (starts_with_contains _ _ Hl).
  rewrite slice_prefix. unfold net.IndexByte at 1.
  rewrite IndexByte_from_none by assumption.
  change (0 <=? -1) with false. cbv iota.
  rewrite slice_all. unfold net.IndexByte.
  rewrite !IndexByte_from_none by assumption.
  change (0 <=? -1) with false. cbv iota.
  now rewrite slice_after_byte.
Qed.

Lemma append_nil_r (s : string) : s +:+ "" = s.
Proof.
  induction s as [|c s IH]; [reflexivity|]. rewrite append_cons. now rewrite IH.
Qed.

Lemma dotted_quad_ends_with_digit (a b c d : Z) :
  is_byte d -> starts_with_digit (string_rev (net.dotted_quad [a; b; c; d])) = true.
Proof.
  intros [Hd _]. rewrite dotted_quad_unfold.
  assert (E : strconv.FormatInt a +:+ String "."
                (strconv.FormatInt b +:+ String "."
                   (strconv.FormatInt c +:+ String "." (strconv.FormatInt d)))
              = (strconv.FormatInt a +:+ String "."
                   (strconv.FormatInt b +:+ String "."
                      (strconv.FormatInt c +:+ String "." "")))
                +:+ strconv.FormatInt d).
  { generalize (strconv.FormatInt a) (strconv.FormatInt b) (strconv.FormatInt c)
      (strconv.FormatInt d). clear. intros x y z t.
    assert (A : forall u v w : string, (u +:+ v) +:+ w = u +:+ (v +:+ w)).
    { intros u v w. induction u as [|k u IH]; [reflexivity|].
      rewrite !append_cons. now rewrite IH. }
    rewrite A, append_cons, A, append_cons, A, append_cons, append_nil.
    reflexivity. }
  rewrite E. apply ends_with_digits.
  - now apply FormatInt_digits.
  - now apply FormatInt_nonempty.
Qed.

Lemma TrimSpace_dotted_quad (a b c d : Z) :
  is_byte a -> is_byte b -> is_byte c -> is_byte d ->
  strings.TrimSpace (net.dotted_quad [a; b; c; d]) = net.dotted_quad [a; b; c; d].
Proof.
  intros Ha Hb Hc Hd. apply TrimSpace_between_digits.
  - now apply dotted_quad_shape.
  - now apply dotted_quad_ends_with_digit.
Qed.

Lemma dotted_quad_nonempty (a b c d : Z) :
  is_byte a -> is_byte b -> is_byte c -> is_byte d ->
  forall rest, String.eqb (net.dotted_quad [a; b; c; d] +:+ rest) "" = false.
Proof.
  intros Ha Hb Hc Hd rest.
  destruct (dotted_quad_shape a b c d Ha Hb Hc Hd) as [Hs _].
  destruct (net.dotted_quad [a; b; c; d]) as [|x t]; [discriminate|].
  now rewrite append_cons.
Qed.

(** ** The key of an IPv4 client *)

(** X8. A dotted quad at the head of X-Forwarded-For, or alone in X-Real-IP when
    X-Forwarded-For is empty, is the address [GetIP] returns and the text
    the default key function yields, whatever the remote address is. *)
Theorem forwarded_dotted_quad_is_the_key
    (r : Request) (a b c d : Z) (rest : string) :
  is_byte a -> is_byte b -> is_byte c -> is_byte d ->
  (Header_Get (ReqHeader r) "X-Forwarded-For"
     = net.dotted_quad [a; b; c; d] +:+ rest
   /\ (rest = "" \/ exists t, rest = String "," t))
  \/ (Header_Get (ReqHeader r) "X-Forwarded-For" = ""
      /\ Header_Get (ReqHeader r) "X-Real-IP" = net.dotted_quad [a; b; c; d]) ->
  GetIP r = net.v4InV6Prefix ++ [a; b; c; d]
  /\ (forall (Client : Type) (swa : Z) key,
        Key (DefaultConfig (Client := Client) swa) = Some key ->
        key r = net.dotted_quad [a; b; c; d]).
Proof.
  intros Ha Hb Hc Hd Hsrc.
  assert (Hcomma : contains_byte "," (net.dotted_quad [a; b; c; d]) = false).
  { apply dotted_quad_shape; try assumption; [reflexivity|discriminate]. }
  assert (Hip : GetIP r = net.v4InV6Prefix ++ [a; b; c; d]).
  { unfold GetIP. destruct Hsrc as [[Hx Hrest]|[Hx Hreal]].
    - rewrite Hx, dotted_quad_nonempty by assumption. cbn [negb].
      rewrite SplitN_first.
      destruct Hrest as [->|[t ->]].
      + rewrite append_nil_r, Cut_none by exact Hcomma.
        rewrite TrimSpace_dotted_quad by assumption.
        now apply ParseIP_dotted_quad.
      + rewrite Cut_at by exact Hcomma.
        rewrite TrimSpace_dotted_quad by assumption.
        now apply ParseIP_dotted_quad.
    - rewrite Hx, Hreal. cbn [String.eqb negb].
      rewrite TrimSpace_dotted_quad by assumption.
      rewrite <- (append_nil_r (net.dotted_quad [a; b; c; d])) at 1.
      rewrite dotted_quad_nonempty by assumption. cbn [negb].
      now apply ParseIP_dotted_quad. }
  split; [exact Hip|].
  intros Client swa key [= <-]. now rewrite Hip.
Qed.

Lemma forwarded_dotted_quad_example :
  let r :=
    request [("X-Forwarded-For", "203.0.113.5, 10.0.0.1"); ("X-Real-IP", "bogus")]
      "192.0.2.1:54321" in
  GetIP r = [0; 0; 0; 0; 0; 0; 0; 0; 0; 0; 255; 255; 203; 0; 113; 5]
  /\ net.IP_String (GetIP r) = "203.0.113.5".
Proof.
  intros r.
  destruct (forwarded_dotted_quad_is_the_key r 203 0 113 5 ", 10.0.0.1"
              ltac:(unfold is_byte; lia) ltac:(unfold is_byte; lia)
              ltac:(unfold is_byte; lia) ltac:(unfold is_byte; lia)
              (or_introl (conj eq_refl (or_intror (ex_intro _ " 10.0.0.1" eq_refl)))))
    as [Hip Hkey].
  split; [exact Hip|].
  exact (Hkey unit 0 _ eq_refl).
Defined.

(** X9. With no forwarding header, a remote address [a.b.c.d:port], as the
    server sets it for an IPv4 peer, gives the address a.b.c.d and the key
    ["a.b.c.d"]: the port has no part in the key. *)
Theorem remote_dotted_quad_is_the_key
    (r : Request) (a b c d : Z) (port : string) :
  is_byte a -> is_byte b -> is_byte c -> is_byte d ->
  Header_Get (ReqHeader r) "X-Forwarded-For" = "" ->
  strings.TrimSpace (Header_Get (ReqHeader r) "X-Real-IP") = "" ->
  RemoteAddr r = net.dotted_quad [a; b; c; d] +:+ String ":" port ->
  all_bytes net.is_digit port = true -> port <> "" ->
  GetIP r = net.v4InV6Prefix ++ [a; b; c; d]
  /\ (forall (Client : Type) (swa : Z) key,
        Key (DefaultConfig (Client := Client) swa) = Some key ->
        key r = net.dotted_quad [a; b; c; d]).
Proof.
  intros Ha Hb Hc Hd Hx Hreal Hremote Hport Hne.
  destruct (dotted_quad_shape a b c d Ha Hb Hc Hd) as [Hstart Hfree].
  assert (Htrim : strings.TrimSpace (RemoteAddr r) = RemoteAddr r).
  { rewrite Hremote. apply TrimSpace_between_digits.
    - now apply starts_with_digit_app.
    - rewrite string_rev_app. cbn [string_rev].
      do 2 apply starts_with_digit_app.
      apply digits_start_with_digit; [now rewrite all_bytes_rev|].
      now apply string_rev_nonempty. }
  assert (Hsplit : net.SplitHostPort (RemoteAddr r)
                   = inl (net.dotted_quad [a; b; c; d], port)).
  { rewrite Hremote. apply SplitHostPort_host_port.
    intros x Hin.
    assert (Hx' : net.is_digit x = false /\ x <> "."%char).
    { cbn in Hin. destruct Hin as [<-|[<-|[<-|[]]]]; split;
        (reflexivity || discriminate). }
    destruct Hx' as [Hdig Hdot]. split.
    - now apply Hfree.
    - now apply contains_byte_digits. }
  assert (Hip : GetIP r = net.v4InV6Prefix ++ [a; b; c; d]).
  { unfold GetIP. rewrite Hx, Hreal, Htrim, Hsplit. cbn [String.eqb negb].
    now apply ParseIP_dotted_quad. }
  split; [exact Hip|].
  intros Client swa key [= <-]. now rewrite Hip.
Qed.

Lemma remote_dotted_quad_example :
  let r := request [] "192.0.2.1:54321" in
  GetIP r = [0; 0; 0; 0; 0; 0; 0; 0; 0; 0; 255; 255; 192; 0; 2; 1]
  /\ net.IP_String (GetIP r) = "192.0.2.1".
Proof.
  intros r.
  destruct (remote_dotted_quad_is_the_key r 192 0 2 1 "54321"
              ltac:(unfold is_byte; lia) ltac:(unfold is_byte; lia)
              ltac:(unfold is_byte; lia) ltac:(unfold is_byte; lia)
              eq_refl eq_refl eq_refl eq_refl ltac:(discriminate))
    as [Hip Hkey].
  split; [exact Hip|].
  exact (Hkey unit 0 _ eq_refl).
Defined.

(** ** Construction and the limiter's view *)

Lemma default_Z_idempotent (x d : Z) :
  (if (if x =? 0 then d else x) =? 0 then d else (if x =? 0 then d else x))
  = (if x =? 0 then d else x).
Proof.
  destruct (x =? 0) eqn:E; [destruct (d =? 0); reflexivity|now rewrite E].
Qed.

Lemma default_string_idempotent (x d : string) :
  (if String.eqb (if String.eqb x "" then d else x) ""
   then d else (if String.eqb x "" then d else x))
  = (if String.eqb x "" then d else x).
Proof.
  destruct (String.eqb x "") eqn:E; [destruct (String.eqb d ""); reflexivity|].
  now rewrite E.
Qed.

Section Construction.

Variable Client : Type.
Variable Store : Type.
Variable SlidingWindowAlgorithm : Z.
Variable Allow :
  Client -> string -> go_limiter.Limit -> Store ->
  (go_limiter.Result + error) * Store.

Local Abbreviation resolve := (NewWithConfig_config SlidingWindowAlgorithm).
Local Abbreviation handler := (NewWithConfig_handler Allow).
Local Abbreviation build := (NewWithConfig SlidingWindowAlgorithm Allow).

(** X1. [New(rediser)] is [NewWithConfig(Config{Rediser: rediser})]: starting
    from [DefaultConfig] or from the zero configuration gives the same
    middleware, or the same panic when the handle is nil. *)
Theorem New_is_NewWithConfig_of_handle_only (rediser : option Client) :
  New SlidingWindowAlgorithm Allow rediser = build (handle_only rediser).
Proof.
  unfold New, NewWithConfig, handle_only. cbn [Rediser].
  destruct rediser as [rd|]; [|reflexivity].
  unfold NewWithConfig_config, DefaultConfig.
  cbn [Skipper Rediser Max Burst StatusCode Message Algorithm Prefix
       SkipOnError Period Key Handler ErrHandler].
  destruct (SlidingWindowAlgorithm =? 0); reflexivity.
Qed.

(** X2. Applying the defaults to a resolved configuration changes nothing, so a
    configuration read back from a middleware builds the same middleware. *)
Theorem defaults_are_idempotent (cfg : Config Client) :
  resolve (resolve cfg) = resolve cfg
  /\ build (resolve cfg) = build cfg.
Proof.
  assert (H : resolve (resolve cfg) = resolve cfg).
  { unfold NewWithConfig_config, DefaultConfig.
    cbn [Skipper Rediser Max Burst StatusCode Message Algorithm Prefix
         SkipOnError Period Key Handler ErrHandler].
    rewrite !default_Z_idempotent, !default_string_idempotent.
    destruct (Skipper cfg), (Key cfg), (Handler cfg), (ErrHandler cfg);
      reflexivity. }
  split; [exact H|].
  unfold NewWithConfig. rewrite H.
  change (Rediser (resolve cfg)) with (Rediser cfg). reflexivity.
Qed.

(** X3. With a reject handler of its own, a configuration's status code and
    message are not used: whatever they are, the middleware is the same. *)
Theorem custom_reject_handler_ignores_status_and_message
    (cfg : Config Client) (code : Z) (message : string)
    (h : ResponseWriter -> Request -> Outcome ResponseWriter) :
  Handler cfg = Some h ->
  build (with_reject_text code message cfg) = build cfg.
Proof.
  intros H. destruct cfg as [sk rd mx bu sc msg al pre soe per ky hd eh].
  cbn in H. subst hd. reflexivity.
Qed.

(** A request that is not skipped costs exactly one call of the limiter, the
    handler's first call, and ends with the outcome of one callback, its last
    call. *)
Lemma handler_checked
    (c : Config Client) limiter limit next w r (s : World Store)
    skipper key reject onError :
  callbacks c skipper key reject onError -> skipper r = false ->
  exists out evs,
    handler c limiter limit next w r s =
      (out,
       mkWorld (snd (Allow limiter (key r) limit (store s))) (clock s)
         (calls s ++ CallAllow (key r) limit :: evs))
    /\ count_calls is_limiter_call evs = 0%nat
    /\ count_calls is_terminal_call evs = 1%nat
    /\ ((exists w0,
           out = next w0 r /\ (evs = [CallNext r] \/ evs = [CallNow; CallNext r]))
        \/ (exists w0, out = reject w0 r /\ evs = [CallNow; CallHandler r])
        \/ (exists err, out = onError err w r /\ evs = [CallErrHandler err r])).
Proof.
  intros Hcb Hr.
  rewrite (handler_paths _ _ Allow c limiter limit next w r s _ _ _ _ Hcb).
  cbv zeta. rewrite Hr.
  destruct (Allow limiter (key r) limit (store s)) as [[result | err] st'];
    cbn [fst snd].
  - destruct (go_limiter.Allowed result); do 2 eexists;
      (split; [reflexivity|]); (split; [reflexivity|]);
      (split; [reflexivity|]); eauto 6.
  - destruct (SkipOnError c); do 2 eexists;
      (split; [reflexivity|]); (split; [reflexivity|]);
      (split; [reflexivity|]); eauto 6.
Qed.

(** X4. The limit every limiter call carries: the rate is the resolved maximum,
    the burst, period and algorithm are the resolved ones. When the request
    is allowed, X-RateLimit-Limit advertises that rate. *)
Theorem advertised_limit_is_the_enforced_rate
    (cfg : Config Client) (mw : Middleware Store) (rediser : Client)
    skipper key reject onError next w r (s : World Store) :
  build cfg = Done mw ->
  Rediser cfg = Some rediser ->
  callbacks (resolve cfg) skipper key reject onError ->
  skipper r = false ->
  let limit :=
    go_limiter.mkLimit
      (if Period cfg =? 0 then 60000000000 else Period cfg)
      (if Algorithm cfg =? 0 then SlidingWindowAlgorithm else Algorithm cfg)
      (if Max cfg =? 0 then 10 else Max cfg)
      (if Burst cfg =? 0 then 10 else Burst cfg) in
  (exists out evs,
     mw next w r s =
       (out,
        mkWorld (snd (Allow rediser (key r) limit (store s))) (clock s)
          (calls s ++ CallAllow (key r) limit :: evs))
     /\ count_calls is_limiter_call evs = 0%nat
     /\ ((exists w0, out = next w0 r)
         \/ (exists w0, out = reject w0 r)
         \/ (exists err, out = onError err w r)))
  /\ (forall result,
        fst (Allow rediser (key r) limit (store s)) = inl result ->
        go_limiter.Allowed result = true ->
        exists w3,
          fst (mw next w r s) = next w3 r
          /\ strconv.ParseInt (Header_Get (HeaderMap w3) "X-RateLimit-Limit")
             = Some (go_limiter.Rate limit)).
Proof.
  intros Hb Hrd Hcb Hr limit.
  rewrite (NewWithConfig_Done _ _ SlidingWindowAlgorithm Allow cfg rediser Hrd) in Hb.
  injection Hb as <-.
  change limit with (NewWithConfig_limit (resolve cfg)).
  split.
  - destruct (handler_checked (resolve cfg) rediser
                (NewWithConfig_limit (resolve cfg)) next w r s
                skipper key reject onError Hcb Hr)
      as (out & evs & Hrun & Hn & _ & Hout).
    exists out, evs. split; [exact Hrun|]. split; [exact Hn|].
    destruct Hout as [(w0 & -> & _) | [(w0 & -> & _) | (err & -> & _)]]; eauto.
  - intros result Hres Hallowed.
    destruct Hcb as (Hs & Hk & _).
    destruct (Allow rediser (key r) (NewWithConfig_limit (resolve cfg)) (store s))
      as [res st'] eqn:Ha.
    cbn in Hres. subst res.
    eexists. split.
    + erewrite handler_allowed by eassumption. reflexivity.
    + rewrite !HeaderMap_SetHeader.
      rewrite !Header_Get_Set_other by (vm_compute; discriminate).
      rewrite Header_Get_Set. apply ParseInt_FormatInt.
Qed.

(** X5. When no skip predicate is configured, no request is let through
    unchecked: each one costs exactly one call of the limiter, made before
    anything else, and ends with one call of a callback (the inner handler,
    the reject handler or the error handler), whose outcome is the
    handler's. *)
Theorem without_skipper_every_request_is_checked
    (cfg : Config Client) (mw : Middleware Store) (rediser : Client)
    next w r (s : World Store) :
  build cfg = Done mw ->
  Rediser cfg = Some rediser ->
  Skipper cfg = None ->
  exists key reject onError out evs,
    Key (resolve cfg) = Some key
    /\ Handler (resolve cfg) = Some reject
    /\ ErrHandler (resolve cfg) = Some onError
    /\ mw next w r s =
         (out,
          mkWorld
            (snd (Allow rediser (key r) (NewWithConfig_limit (resolve cfg)) (store s)))
            (clock s)
            (calls s ++ CallAllow (key r) (NewWithConfig_limit (resolve cfg)) :: evs))
    /\ count_calls is_limiter_call evs = 0%nat
    /\ count_calls is_terminal_call evs = 1%nat
    /\ ((exists w0,
           out = next w0 r /\ (evs = [CallNext r] \/ evs = [CallNow; CallNext r]))
        \/ (exists w0, out = reject w0 r /\ evs = [CallNow; CallHandler r])
        \/ (exists err, out = onError err w r /\ evs = [CallErrHandler err r])).
Proof.
  intros Hb Hrd Hnone.
  rewrite (NewWithConfig_Done _ _ SlidingWindowAlgorithm Allow cfg rediser Hrd) in Hb.
  injection Hb as <-.
  destruct (callbacks_resolved _ SlidingWindowAlgorithm cfg)
    as (skipper & key & reject & onError & Hcb).
  assert (Hsk : skipper = DefaultSkipper).
  { destruct Hcb as (Hs & _). unfold NewWithConfig_config in Hs.
    cbn [Skipper] in Hs. rewrite Hnone in Hs. cbn in Hs. now injection Hs as <-. }
  destruct (handler_checked (resolve cfg) rediser
              (NewWithConfig_limit (resolve cfg)) next w r s
              skipper key reject onError Hcb ltac:(now rewrite Hsk))
    as (out & evs & Hrun & Hn & Ht & Hout).
  exists key, reject, onError, out, evs.
  destruct Hcb as (_ & Hk & Hh & He). now repeat split.
Qed.

(** X6. On the rejected path the writer handed to the reject handler differs
    from the one received in Retry-After only: that header holds the one
    timestamp, whatever values it held before, and every other header, the
    status and the body are as they were. *)
Theorem rejected_request_changes_retry_after_only
    (cfg : Config Client) (mw : Middleware Store) (rediser : Client)
    skipper key reject onError next w r (s : World Store) result st' :
  build cfg = Done mw ->
  Rediser cfg = Some rediser ->
  callbacks (resolve cfg) skipper key reject onError ->
  skipper r = false ->
  Allow rediser (key r) (NewWithConfig_limit (resolve cfg)) (store s)
    = (inl result, st') ->
  go_limiter.Allowed result = false ->
  exists w1,
    fst (mw next w r s) = reject w1 r
    /\ HeaderMap w1 !! "Retry-After"
       = Some [strconv.FormatInt
                 (time.Unix (time.Add (clock s) (go_limiter.RetryAfter result)))]
    /\ (forall k, k <> "Retry-After" -> HeaderMap w1 !! k = HeaderMap w !! k)
    /\ wroteHeader w1 = wroteHeader w /\ Code w1 = Code w
    /\ snapHeader w1 = snapHeader w /\ Body w1 = Body w.
Proof.
  intros Hb Hrd (Hs & Hk & Hh & He) Hr Ha Hd.
  rewrite (NewWithConfig_Done _ _ SlidingWindowAlgorithm Allow cfg rediser Hrd) in Hb.
  injection Hb as <-.
  eexists. split.
  { erewrite handler_rejected by eassumption. reflexivity. }
  rewrite HeaderMap_SetHeader. unfold Header_Set.
  change (CanonicalMIMEHeaderKey "Retry-After") with "Retry-After".
  split; [apply lookup_insert_eq|].
  split; [intros k Hne; now apply lookup_insert_ne|].
  repeat split.
Qed.

End Construction.

Lemma custom_reject_handler_example :
  Handler teapot_config
    = Some (fun w _ =>
              and_then (WriteHeader w 418) (fun w => Done (Write w "slow down")))
  /\ NewWithConfig 0 counter_Allow (with_reject_text 503 "busy" teapot_config)
     = NewWithConfig 0 counter_Allow teapot_config.
Proof.
  split; [reflexivity|].
  exact (custom_reject_handler_ignores_status_and_message unit
           (option (gmap string Z)) 0 counter_Allow teapot_config 503 "busy" _
           eq_refl).
Defined.

Lemma advertised_limit_example :
  let r := request [] "192.0.2.1:54321" in
  let s := example_world (Some ∅) in
  exists mw w3,
    NewWithConfig 0 counter_Allow example_config = Done mw
    /\ fst (mw hello NewRecorder r s) = hello w3 r
    /\ strconv.ParseInt (Header_Get (HeaderMap w3) "X-RateLimit-Limit") = Some 3.
Proof.
  intros r s.
  destruct
    (advertised_limit_is_the_enforced_rate unit (option (gmap string Z)) 0
       counter_Allow example_config _ tt DefaultSkipper
       (fun r0 => net.IP_String (GetIP r0)) _ _ hello NewRecorder r s
       eq_refl eq_refl (conj eq_refl (conj eq_refl (conj eq_refl eq_refl)))
       eq_refl)
    as (_ & Hallowed).
  destruct (Hallowed (go_limiter.mkResult true 2 (-1) 10000000000)
              eq_refl eq_refl) as (w3 & Hrun & Hlimit).
  eexists. exists w3. split; [reflexivity|]. split; [exact Hrun|exact Hlimit].
Defined.

Lemma without_skipper_example :
  let r := request [] "192.0.2.1:54321" in
  let s := example_world None in
  exists mw out st' evs,
    NewWithConfig 0 counter_Allow example_config = Done mw
    /\ mw hello NewRecorder r s
       = (out,
          mkWorld st' example_clock
            (CallAllow "192.0.2.1" (go_limiter.mkLimit 10000000000 0 3 3) :: evs))
    /\ count_calls is_limiter_call evs = 0%nat
    /\ count_calls is_terminal_call evs = 1%nat.
Proof.
  intros r s.
  destruct
    (without_skipper_every_request_is_checked unit (option (gmap string Z)) 0
       counter_Allow example_config _ tt hello NewRecorder r s
       eq_refl eq_refl eq_refl)
    as (key & reject & onError & out & evs & Hkey & _ & _ & Hrun & Hn & Ht & _).
  injection Hkey as <-.
  eexists. exists out. eexists. exists evs. split; [reflexivity|].
  split; [exact Hrun|]. split; [exact Hn|exact Ht].
Defined.

Lemma rejected_request_frame_example :
  let r := request [] "192.0.2.1:54321" in
  let s := example_world (Some {[ "192.0.2.1" := 3 ]}) in
  let w := SetHeader (SetHeader NewRecorder "Retry-After" "120") "Vary" "Origin" in
  exists mw w1,
    NewWithConfig 0 counter_Allow example_config = Done mw
    /\ fst (mw hello w r s)
       = and_then (WriteHeader w1 429)
           (fun w0 => Done (Write w0 "Too many requests, please try again later."))
    /\ HeaderMap w1 !! "Retry-After" = Some ["1585918932"]
    /\ HeaderMap w1 !! "Vary" = Some ["Origin"].
Proof.
  intros r s w.
  destruct
    (rejected_request_changes_retry_after_only unit (option (gmap string Z)) 0
       counter_Allow example_config _ tt DefaultSkipper
       (fun r0 => net.IP_String (GetIP r0)) _ _ hello w r s
       (go_limiter.mkResult false 0 10000000000 10000000000)
       (Some {[ "192.0.2.1" := 3 ]})
       eq_refl eq_refl (conj eq_refl (conj eq_refl (conj eq_refl eq_refl)))
       eq_refl eq_refl eq_refl)
    as (w1 & Hrun & Hretry & Hother & _).
  eexists. exists w1. split; [reflexivity|].
  split; [exact Hrun|]. split.
  - rewrite Hretry. vm_compute. reflexivity.
  - rewrite Hother by discriminate. vm_compute. reflexivity.
Defined.

(** ** IPv4-mapped addresses *)

Lemma xtoi_digits (pre rest : string) :
  forall (acc : Z) (off : nat),
    all_bytes net.is_digit pre = true ->
    (String.length pre + off <= 4)%nat -> (0 < String.length pre + off)%nat ->
    exists n, net.xtoi (pre +:+ String "." rest) acc off = Some (n, String "." rest).
Proof.
  induction pre as [|c pre IH]; intros acc off Hd Hle Hpos.
  - rewrite append_nil. cbn in Hpos |- *.
    destruct off; [lia|]. now eexists.
  - rewrite append_cons. cbn in Hd, Hle. apply andb_true_iff in Hd as [Hc Hd].
    cbn [net.xtoi]. unfold net.hexval. unfold net.is_digit in Hc. rewrite Hc.
    destruct (Nat.ltb_spec 3 off); [lia|].
    apply IH; [exact Hd|lia|lia].
Qed.

Lemma xtoi_ffff (rest : string) :
  net.xtoi (String "f" (String "f" (String "f" (String "f" (String ":" rest))))) 0 0
  = Some (65535, String ":" rest).
Proof. vm_compute. reflexivity. Qed.

(** One turn of the loop of [parseIPv6] over a group that is followed by a
    colon and more text that does not begin with a colon. *)
Lemma parseIPv6_loop_group (fuel : nat) (s : string) (ip : list Z)
    (e : option nat) (n : Z) (x : ascii) (t : string) :
  net.xtoi s 0 0 = Some (n, String ":" (String x t)) ->
  x <> ":"%char ->
  (length (ip ++ [Z.shiftr n 8; Z.land n 255]) <? 16)%nat = true ->
  net.parseIPv6_loop (S fuel) s ip e
  = net.parseIPv6_loop fuel (String x t) (ip ++ [Z.shiftr n 8; Z.land n 255]) e.
Proof.
  intros Hx Hne Hlen. cbn [net.parseIPv6_loop]. rewrite Hx.
  change (net.starts_with "." (String ":" (String x t))) with false.
  change (negb (Ascii.eqb ":" ":")) with false. cbv iota.
  rewrite Hlen.
  destruct x as [[] [] [] [] [] [] [] []]; try reflexivity.
  contradiction.
Qed.

(** The turn that meets a dotted quad after an ellipsis. *)
Lemma parseIPv6_loop_embedded (fuel : nat) (s : string) (ip p : list Z)
    (k : nat) (n : Z) (rest : string) :
  net.xtoi s 0 0 = Some (n, String "." rest) ->
  net.parseIPv4Fields s = Some p ->
  (length ip + 4 <= 16)%nat ->
  net.parseIPv6_loop (S fuel) s ip (Some k) = Some (ip ++ p, Some k).
Proof.
  intros Hx Hp Hlen. cbn [net.parseIPv6_loop]. rewrite Hx.
  change (net.starts_with "." (String "." rest)) with true. cbv iota.
  cbn [is_none andb].
  destruct (Nat.ltb_spec 16 (length ip + 4)); [lia|].
  now rewrite Hp.
Qed.

Lemma digit_not_colon (x : ascii) : net.is_digit x = true -> x <> ":"%char.
Proof. intros H ->. discriminate. Qed.

Lemma xtoi_dotted_quad (a b c d : Z) :
  is_byte a -> is_byte b -> is_byte c -> is_byte d ->
  exists n rest,
    net.xtoi (net.dotted_quad [a; b; c; d]) 0 0 = Some (n, String "." rest).
Proof.
  intros Ha Hb Hc Hd. rewrite dotted_quad_unfold.
  destruct (xtoi_digits (strconv.FormatInt a)
              (strconv.FormatInt b +:+ String "."
                 (strconv.FormatInt c +:+ String "." (strconv.FormatInt d)))
              0 0%nat) as [n Hn].
  - apply FormatInt_digits, Ha.
  - pose proof (FormatInt_byte_length a Ha) as Hl.
    apply Nat.leb_le in Hl. lia.
  - pose proof (FormatInt_nonempty a (proj1 Ha)) as Hne.
    destruct (strconv.FormatInt a); [contradiction|cbn; lia].
  - eauto.
Qed.

Lemma parseIPv6_mapped (dq : string) (p : list Z) (n : Z) (rest : string) :
  starts_with_digit dq = true ->
  net.xtoi dq 0 0 = Some (n, String "." rest) ->
  net.parseIPv4Fields dq = Some p ->
  net.parseIPv6 ("::ffff:" +:+ dq) = replicate 10 0 ++ [255; 255] ++ p.
Proof.
  intros Hstart Hx Hp.
  destruct dq as [|x t]; [discriminate|]. cbn in Hstart.
  change ("::ffff:" +:+ String x t)
    with (String ":" (String ":" (String "f" (String "f" (String "f"
            (String "f" (String ":" (String x t)))))))).
  cbn [net.parseIPv6].
  rewrite (parseIPv6_loop_group 8 _ [] (Some 0%nat) 65535 x t
             (xtoi_ffff _) (digit_not_colon x Hstart) eq_refl).
  rewrite (parseIPv6_loop_embedded 7 _ _ p 0 n rest Hx Hp)
    by (cbn; lia).
  apply parseIPv4Fields_length in Hp.
  destruct p as [|p0 [|p1 [|p2 [|p3 [|]]]]]; try discriminate.
  reflexivity.
Qed.

(** The IPv4-mapped IPv6 text of an address is read as the same 16 bytes as
    its dotted quad. *)
Lemma ParseIP_mapped_dotted_quad (a b c d : Z) :
  is_byte a -> is_byte b -> is_byte c -> is_byte d ->
  net.ParseIP ("::ffff:" +:+ net.dotted_quad [a; b; c; d])
  = net.v4InV6Prefix ++ [a; b; c; d].
Proof.
  intros Ha Hb Hc Hd.
  destruct (xtoi_dotted_quad a b c d Ha Hb Hc Hd) as (n & rest & Hx).
  unfold net.ParseIP.
  change (net.ParseIP_scan ("::ffff:" +:+ net.dotted_quad [a; b; c; d])
            ("::ffff:" +:+ net.dotted_quad [a; b; c; d]))
    with (net.parseIPv6 ("::ffff:" +:+ net.dotted_quad [a; b; c; d])).
  rewrite (parseIPv6_mapped _ [a; b; c; d] n rest); [reflexivity| |exact Hx|].
  - now apply dotted_quad_shape.
  - now apply parseIPv4Fields_dotted_quad.
Qed.

Lemma TrimSpace_mapped (dq : string) :
  starts_with_digit (string_rev dq) = true ->
  strings.TrimSpace ("::ffff:" +:+ dq) = "::ffff:" +:+ dq.
Proof.
  intros Hend. unfold strings.TrimSpace.
  assert (Hleft : strings.TrimLeftSpace ("::ffff:" +:+ dq) = "::ffff:" +:+ dq).
  { unfold strings.TrimLeftSpace. apply trim_left_fixed. reflexivity. }
  rewrite Hleft. unfold strings.TrimRightSpace.
  rewrite trim_left_fixed; [apply string_rev_involutive|].
  rewrite string_rev_app.
  destruct (string_rev dq) as [|x t]; [discriminate|].
  rewrite append_cons. exact (proj2 (strip_one_digit x _ Hend)).
Qed.

(** X10. The IPv4-mapped IPv6 text [::ffff:a.b.c.d] in X-Forwarded-For (at its
    head), or in X-Real-IP when X-Forwarded-For is empty, gives the same
    address and the same key ["a.b.c.d"] as the dotted quad itself: a client
    reported in either form is counted under one key. *)
Theorem mapped_IPv4_shares_the_dotted_quad_key
    (r : Request) (a b c d : Z) (rest : string) :
  is_byte a -> is_byte b -> is_byte c -> is_byte d ->
  (Header_Get (ReqHeader r) "X-Forwarded-For"
     = ("::ffff:" +:+ net.dotted_quad [a; b; c; d]) +:+ rest
   /\ (rest = "" \/ exists t, rest = String "," t))
  \/ (Header_Get (ReqHeader r) "X-Forwarded-For" = ""
      /\ Header_Get (ReqHeader r) "X-Real-IP"
         = "::ffff:" +:+ net.dotted_quad [a; b; c; d]) ->
  GetIP r = net.ParseIP (net.dotted_quad [a; b; c; d])
  /\ GetIP r = net.v4InV6Prefix ++ [a; b; c; d]
  /\ (forall (Client : Type) (swa : Z) key,
        Key (DefaultConfig (Client := Client) swa) = Some key ->
        key r = net.dotted_quad [a; b; c; d]).
Proof.
  intros Ha Hb Hc Hd Hsrc.
  assert (Hcomma :
    contains_byte "," ("::ffff:" +:+ net.dotted_quad [a; b; c; d]) = false).
  { rewrite contains_byte_app. change (contains_byte "," "::ffff:") with false.
    apply dotted_quad_shape; try assumption; [reflexivity|discriminate]. }
  assert (Htrim :
    strings.TrimSpace ("::ffff:" +:+ net.dotted_quad [a; b; c; d])
    = "::ffff:" +:+ net.dotted_quad [a; b; c; d])
    by (apply TrimSpace_mapped; now apply dotted_quad_ends_with_digit).
  assert (Hip : GetIP r = net.v4InV6Prefix ++ [a; b; c; d]).
  { unfold GetIP. destruct Hsrc as [[Hx Hrest]|[Hx Hreal]].
    - rewrite Hx. cbn [String.eqb negb]. rewrite SplitN_first.
      destruct Hrest as [->|[t ->]].
      + rewrite append_nil_r, Cut_none by exact Hcomma.
        rewrite Htrim. now apply ParseIP_mapped_dotted_quad.
      + rewrite Cut_at by exact Hcomma.
        rewrite Htrim. now apply ParseIP_mapped_dotted_quad.
    - rewrite Hx, Hreal, Htrim. cbn [String.eqb negb].
      now apply ParseIP_mapped_dotted_quad. }
  split; [rewrite Hip; symmetry; now apply ParseIP_dotted_quad|].
  split; [exact Hip|].
  intros Client swa key [= <-]. now rewrite Hip.
Qed.

Lemma mapped_IPv4_example :
  let r := request [("X-Forwarded-For", "::ffff:203.0.113.5")] "192.0.2.1:54321" in
  GetIP r = [0; 0; 0; 0; 0; 0; 0; 0; 0; 0; 255; 255; 203; 0; 113; 5]
  /\ net.IP_String (GetIP r) = "203.0.113.5".
Proof.
  intros r.
  destruct (mapped_IPv4_shares_the_dotted_quad_key r 203 0 113 5 ""
              ltac:(unfold is_byte; lia) ltac:(unfold is_byte; lia)
              ltac:(unfold is_byte; lia) ltac:(unfold is_byte; lia)
              (or_introl (conj eq_refl (or_introl eq_refl))))
    as (_ & Hip & Hkey).
  split; [exact Hip|].
  exact (Hkey unit 0 _ eq_refl).
Defined.

(** ** Blank headers and the shape of the result *)

(** X11. A non-empty X-Forwarded-For whose first part is blank (white space
    only, or nothing before the first comma) ends the search: no address is
    found and the key is ["<nil>"], whatever X-Real-IP and the remote address
    hold. A blank X-Real-IP is passed over: the remote address decides. *)
Theorem blank_forwarded_for_hides_the_client (r : Request) :
  let xff := Header_Get (ReqHeader r) "X-Forwarded-For" in
  let remote := strings.TrimSpace (RemoteAddr r) in
  (xff <> "" ->
   strings.TrimSpace (nth 0 (strings.SplitN xff "," 2) "") = "" ->
   GetIP r = [] /\ net.IP_String (GetIP r) = "<nil>")
  /\ (xff = "" ->
      strings.TrimSpace (Header_Get (ReqHeader r) "X-Real-IP") = "" ->
      GetIP r = match net.SplitHostPort remote with
                | inl (host, _) => net.ParseIP host
                | inr _ => net.ParseIP remote
                end).
Proof.
  intros xff remote. unfold GetIP. fold xff. fold remote. split.
  - intros Hx Hblank.
    destruct (String.eqb_spec xff ""); [contradiction|]. cbn [negb].
    rewrite Hblank. split; reflexivity.
  - intros -> ->. cbn [String.eqb negb].
    destruct (net.SplitHostPort remote) as [[host port]|why]; reflexivity.
Qed.

Lemma blank_forwarded_for_example :
  let r := request [("X-Forwarded-For", " , 203.0.113.5"); ("X-Real-IP", "198.51.100.7")]
             "192.0.2.1:54321" in
  let r' := request [("X-Real-IP", "   ")] "192.0.2.1:54321" in
  net.IP_String (GetIP r) = "<nil>"
  /\ net.IP_String (GetIP r') = "192.0.2.1".
Proof.
  intros r r'. split.
  - exact (proj2 (proj1 (blank_forwarded_for_hides_the_client r)
                    ltac:(vm_compute; discriminate) ltac:(vm_compute; reflexivity))).
  - rewrite (proj2 (blank_forwarded_for_hides_the_client r')
               ltac:(vm_compute; reflexivity) ltac:(vm_compute; reflexivity)).
    vm_compute. reflexivity.
Defined.

(** X12. [GetIP] returns the nil address or 16 bytes, never the 4-byte form of
    an IPv4 address; the default key is ["<nil>"] in the first case and a
    text with a dot or a colon in the second. *)
Theorem GetIP_returns_nil_or_16_bytes (r : Request) :
  (GetIP r = [] /\ net.IP_String (GetIP r) = "<nil>")
  \/ (length (GetIP r) = 16%nat
      /\ net.IP_String (GetIP r) <> "<nil>"
      /\ (contains_byte "." (net.IP_String (GetIP r)) = true
          \/ contains_byte ":" (net.IP_String (GetIP r)) = true)).
Proof.
  destruct (GetIP_length r) as [Hnil|Hlen].
  - left. rewrite Hnil. split; reflexivity.
  - right. split; [exact Hlen|]. split.
    + intros E. apply IP_String_nil_iff in E; [|now right].
      rewrite E in Hlen. discriminate.
    + unfold net.IP_String. rewrite Hlen. unfold net.IPv4len, net.IPv6len.
      cbn [Nat.eqb negb andb].
      destruct (Nat.eqb (length (net.To4 (GetIP r))) 4).
      * left. apply dotted_quad_has_dot.
      * right. apply string6_has_colon.
Qed.

(** ** Retry-After as a point in time *)

Lemma Unix_Add_bounds (t : time.Time) (d : time.Duration) :
  time.valid t ->
  time.Unix t + d / 1000000000 <= time.Unix (time.Add t d)
  <= time.Unix t + d / 1000000000 + 1.
Proof.
  intros Hv. rewrite Unix_Add by exact Hv.
  unfold time.valid, time.UnixNano, time.Unix in *.
  replace (time.sec t * 1000000000 + time.nsec t + d)
    with (time.sec t * 1000000000 + (time.nsec t + d)) by lia.
  rewrite Z.div_add_l by lia.
  assert (H1 : d / 1000000000 <= (time.nsec t + d) / 1000000000)
    by (apply Z.div_le_mono; lia).
  assert (H2 : (time.nsec t + d) / 1000000000 <= (d + 1 * 1000000000) / 1000000000)
    by (apply Z.div_le_mono; lia).
  rewrite Z.div_add in H2 by lia. lia.
Qed.

Section RetryAfter.

Variable Client : Type.
Variable Store : Type.
Variable SlidingWindowAlgorithm : Z.
Variable Allow :
  Client -> string -> go_limiter.Limit -> Store ->
  (go_limiter.Result + error) * Store.

Local Abbreviation resolve := (NewWithConfig_config SlidingWindowAlgorithm).
Local Abbreviation build := (NewWithConfig SlidingWindowAlgorithm Allow).

(** X7. The number in Retry-After is a point in time, not the time to wait:
    with a retry-after duration that is not negative it is the current Unix
    second plus the whole seconds of the duration, or one more, and so
    never before the current second. *)
Theorem retry_after_is_an_absolute_time
    (cfg : Config Client) (mw : Middleware Store) (rediser : Client)
    skipper key reject onError next w r (s : World Store) result st' :
  build cfg = Done mw ->
  Rediser cfg = Some rediser ->
  callbacks (resolve cfg) skipper key reject onError ->
  skipper r = false ->
  Allow rediser (key r) (NewWithConfig_limit (resolve cfg)) (store s)
    = (inl result, st') ->
  go_limiter.Allowed result = false ->
  time.valid (clock s) ->
  0 <= go_limiter.RetryAfter result ->
  exists w1 stamp,
    fst (mw next w r s) = reject w1 r
    /\ strconv.ParseInt (Header_Get (HeaderMap w1) "Retry-After") = Some stamp
    /\ time.Unix (clock s) + go_limiter.RetryAfter result / 1000000000 <= stamp
       <= time.Unix (clock s) + go_limiter.RetryAfter result / 1000000000 + 1
    /\ time.Unix (clock s) <= stamp.
Proof.
  intros Hb Hrd (Hs & Hk & Hh & He) Hr Ha Hd Hv Hpos.
  rewrite (NewWithConfig_Done _ _ SlidingWindowAlgorithm Allow cfg rediser Hrd) in Hb.
  injection Hb as <-.
  do 2 eexists. split.
  { erewrite handler_rejected by eassumption. reflexivity. }
  rewrite HeaderMap_SetHeader, Header_Get_Set.
  split; [apply ParseInt_FormatInt|].
  pose proof (Unix_Add_bounds (clock s) (go_limiter.RetryAfter result) Hv) as Hbd.
  split; [exact Hbd|].
  pose proof (Z.div_pos (go_limiter.RetryAfter result) 1000000000 Hpos ltac:(lia)).
  lia.
Qed.

End RetryAfter.

Lemma retry_after_example :
  let r := request [] "192.0.2.1:54321" in
  let s := example_world (Some {[ "192.0.2.1" := 3 ]}) in
  exists mw w1 stamp,
    NewWithConfig 0 counter_Allow example_config = Done mw
    /\ fst (mw hello NewRecorder r s)
       = and_then (WriteHeader w1 429)
           (fun w0 => Done (Write w0 "Too many requests, please try again later."))
    /\ strconv.ParseInt (Header_Get (HeaderMap w1) "Retry-After") = Some stamp
    /\ 1585918922 <= stamp.
Proof.
  intros r s.
  destruct
    (retry_after_is_an_absolute_time unit (option (gmap string Z)) 0
       counter_Allow example_config _ tt DefaultSkipper
       (fun r0 => net.IP_String (GetIP r0)) _ _ hello NewRecorder r s
       (go_limiter.mkResult false 0 10000000000 10000000000)
       (Some {[ "192.0.2.1" := 3 ]})
       eq_refl eq_refl (conj eq_refl (conj eq_refl (conj eq_refl eq_refl)))
       eq_refl eq_refl eq_refl
       ltac:(unfold time.valid; cbn; lia) ltac:(cbn; lia))
    as (w1 & stamp & Hrun & Hparse & _ & Hnow).
  eexists. exists w1, stamp. split; [reflexivity|].
  split; [exact Hrun|]. split; [exact Hparse|exact Hnow].
Defined.
